(** * Portfolio importer widget: parser, snapshot selector, renderer, orchestrator

    A shallow embedding of the two JavaScript variants of the widget:
    - [Optimized]: the direct-file variant ("Unified System (Optimized)"),
      which reads [portfolio_news_history.csv] and owns [parseNewsCSV];
    - [Widget]: the remote-service variant ([widget.js]).

    JavaScript strings are sequences of UTF-16 code units; they are modelled
    as lists of code units.  A value that may be [undefined] is an [option]. *)

From Stdlib Require Import String Ascii DecimalString.
From Stdlib Require Import List NArith ZArith Bool Lia.
Import ListNotations.

Set Implicit Arguments.
Local Open Scope N_scope.
Local Open Scope list_scope.

(* ================================================================= *)
(** ** JavaScript strings *)

Module Js.

(** One UTF-16 code unit. *)
Definition char := N.
Definition jsstring := list char.

Definition char_eqb (a b : char) : bool := N.eqb a b.

Fixpoint str_eqb (s t : jsstring) : bool :=
  match s, t with
  | [], [] => true
  | a :: s', b :: t' => char_eqb a b && str_eqb s' t'
  | _, _ => false
  end.

(** Code units of a code point (a surrogate pair above the BMP). *)
Definition utf16 (cp : N) : jsstring :=
  if cp <? 65536 then [cp]
  else let v := cp - 65536 in [55296 + v / 1024; 56320 + v mod 1024].

(** Source literals are written as UTF-8 text; [decode] turns the bytes of
    such a literal into the code units the JavaScript engine holds. *)
Fixpoint decode (bs : list N) : jsstring :=
  match bs with
  | [] => []
  | b0 :: t0 =>
    if b0 <? 128 then b0 :: decode t0
    else match t0 with
    | [] => []
    | b1 :: t1 =>
      if b0 <? 224 then utf16 ((b0 - 192) * 64 + (b1 - 128)) ++ decode t1
      else match t1 with
      | [] => []
      | b2 :: t2 =>
        if b0 <? 240
        then utf16 ((b0 - 224) * 4096 + (b1 - 128) * 64 + (b2 - 128))
               ++ decode t2
        else match t2 with
        | [] => []
        | b3 :: t3 =>
          utf16 ((b0 - 240) * 262144 + (b1 - 128) * 4096
                 + (b2 - 128) * 64 + (b3 - 128)) ++ decode t3
        end
      end
    end
  end.

Definition lit (s : string) : jsstring :=
  decode (map N_of_ascii (list_ascii_of_string s)).

(** [String(n)] for a non-negative integer. *)
Definition of_N (n : N) : jsstring :=
  lit (NilEmpty.string_of_uint (N.to_uint n)).

(** Template interpolation [${v}] of a string-or-undefined value. *)
Definition tpl (v : option jsstring) : jsstring :=
  match v with
  | Some s => s
  | None => lit "undefined"
  end.

(** Truthiness of a string-or-undefined value: [undefined] and the empty
    string are falsy. *)
Definition truthy (v : option jsstring) : bool :=
  match v with
  | Some (_ :: _) => true
  | _ => false
  end.

(** [a === b] on string-or-undefined values. *)
Definition strict_eq (a b : option jsstring) : bool :=
  match a, b with
  | Some s, Some t => str_eqb s t
  | None, None => true
  | _, _ => false
  end.

(** ECMAScript WhiteSpace and LineTerminator code points, the set
    [String.prototype.trim] strips. *)
Definition isWhiteSpace (c : char) : bool :=
  (9 <=? c) && (c <=? 13)
  || (c =? 32) || (c =? 160) || (c =? 5760)
  || (8192 <=? c) && (c <=? 8202)
  || (c =? 8232) || (c =? 8233) || (c =? 8239) || (c =? 8287)
  || (c =? 12288) || (c =? 65279).

Fixpoint trimStart (s : jsstring) : jsstring :=
  match s with
  | [] => []
  | c :: t => if isWhiteSpace c then trimStart t else s
  end.

Definition trimEnd (s : jsstring) : jsstring := rev (trimStart (rev s)).

Definition trim (s : jsstring) : jsstring := trimEnd (trimStart s).

(** [s.split(sep)] for a one-character separator: always at least one
    piece, the empty string splits into one empty piece. *)
Fixpoint split (sep : char) (s : jsstring) : list jsstring :=
  match s with
  | [] => [[]]
  | c :: t =>
    if char_eqb c sep then [] :: split sep t
    else match split sep t with
         | [] => [[c]]
         | p :: ps => (c :: p) :: ps
         end
  end.

Definition LF : char := 10.
Definition PIPE : char := 124.

End Js.
Import Js.

(* ================================================================= *)
(** ** Rows: own string-valued properties of a plain object *)

(** A Row is the object [row = {}] filled by [row[header] = value]: its own
    properties, listed here in the order of their creation.  The program
    never enumerates a Row, it only reads one by key. *)
Definition Row := list (jsstring * jsstring).

(** Own-property lookup.  It is [row[k]] for every key that
    [Object.prototype] does not define, among them all the keys the program
    reads ([Date], [ticker], [thesis], [news_1_title] ...); for a key such
    as [constructor] that the row does not own, [row[k]] is the inherited
    value, which [get] does not give. *)
Fixpoint get (r : Row) (k : jsstring) : option jsstring :=
  match r with
  | [] => None
  | (k', v) :: t => if str_eqb k k' then Some v else get t k
  end.

(** Writing a data property: an existing key keeps its place and takes the
    new value, a new key is added last. *)
Fixpoint assign (k v : jsstring) (r : Row) : Row :=
  match r with
  | [] => [(k, v)]
  | (k', v') :: t =>
    if str_eqb k k' then (k, v) :: t else (k', v') :: assign k v t
  end.

(** [row[k] = v] on an object created by [{}].  The key [__proto__] reaches
    the accessor inherited from [Object.prototype], whose setter ignores a
    string: no own property is created. *)
Definition set (r : Row) (k v : jsstring) : Row :=
  if str_eqb k (lit "__proto__") then r else assign k v r.

Definition keys (r : Row) : list jsstring := map fst r.

Definition protoKey : jsstring := lit "__proto__".

(* ================================================================= *)
(** ** parseNewsCSV (direct-file variant) *)

(** [values[index] ? values[index].trim() : ''] *)
Definition cell (values : list jsstring) (index : nat) : jsstring :=
  match nth_error values index with
  | Some v => if truthy (Some v) then trim v else []
  | None => []
  end.

(** [headers.forEach((header, index) => { row[header] = ... })], from
    position [index] on. *)
Fixpoint fillRow (headers : list jsstring) (index : nat)
         (values : list jsstring) (row : Row) : Row :=
  match headers with
  | [] => row
  | header :: hs => fillRow hs (S index) values (set row header (cell values index))
  end.

(** The loop [for (let i = 1; i < lines.length; i++)] over the data lines,
    pushing onto [data]. *)
Fixpoint parseLines (headers : list jsstring) (lines : list jsstring)
         (data : list Row) : list Row :=
  match lines with
  | [] => data
  | line :: rest =>
    let values := split PIPE line in
    if negb (Nat.eqb (length values) (length headers))
    then parseLines headers rest data
    else parseLines headers rest (data ++ [fillRow headers 0 values []])
  end.

(** What one data line contributes to [data]: the loop body, without the
    accumulator. *)
Definition lineRows (headers : list jsstring) (line : jsstring) : list Row :=
  let values := split PIPE line in
  if Nat.eqb (length values) (length headers)
  then [fillRow headers 0 values []]
  else [].

Definition csvLines (csvText : jsstring) : list jsstring :=
  split LF (trim csvText).

Definition headerNames (headerLine : jsstring) : list jsstring :=
  map trim (split PIPE headerLine).

(** The array [data] when the selection at the end of [parseNewsCSV] is
    reached; empty when the function has already returned. *)
Definition parsedRows (csvText : jsstring) : list Row :=
  let lines := csvLines csvText in
  if Nat.ltb (length lines) 2 then []
  else match lines with
       | [] => []
       | headerLine :: rest => parseLines (headerNames headerLine) rest []
       end.

Definition DateKey : jsstring := lit "Date".

(** The tail of [parseNewsCSV]: keep the rows whose [Date] is that of
    [data[0]]. *)
Definition latestSnapshot (data : list Row) : list Row :=
  if Nat.eqb (length data) 0 then []
  else match data with
       | [] => []
       | first :: _ =>
         let latestDate := get first DateKey in
         filter (fun row => strict_eq (get row DateKey) latestDate) data
       end.

Definition parseNewsCSV (csvText : jsstring) : list Row :=
  let lines := csvLines csvText in
  if Nat.ltb (length lines) 2 then []
  else match lines with
       | [] => []
       | headerLine :: rest =>
         let headers := headerNames headerLine in
         let data := parseLines headers rest [] in
         latestSnapshot data
       end.

(* ================================================================= *)
(** ** Effects: the log panel, the buttons and the remote collaborators *)

Inductive LogType := Default | Info | Success | Warning | Error.

Inductive Button := WorkBtn | ImportNewsBtn | ImportChartBtn.

Inductive Method := GET | POST | HEAD.

(** The argument of one [fetch] call.  [req_body] is the object handed to
    [JSON.stringify], [req_json] the [Content-Type: application/json]
    header. *)
Record Request := mkRequest {
  req_url : jsstring;
  req_method : Method;
  req_json : bool;
  req_body : list (jsstring * jsstring)
}.

(** What an action does to its surroundings, in program order.  The
    wall-clock prefix [log] puts before a message is left out. *)
Inductive Event :=
| ELog (msg : jsstring) (type : LogType)
| EClearLog
| ESetDisabled (button : Button) (disabled : bool)
| EFetch (request : Request)
| EConsoleError (message : jsstring)
| ETimeout (ms : N).

(** Result of [response.json()] or [response.text()]. *)
Inductive Body (A : Type) :=
| Decoded (value : A)
| Undecodable (message : jsstring).
Arguments Undecodable {A} message.

(** Result of awaiting [fetch]: the promise rejects, or a response arrives. *)
Inductive FetchResult (A : Type) :=
| Rejected (message : jsstring)
| Responded (ok : bool) (status : N) (body : Body A).
Arguments Rejected {A} message.

Record Response (A : Type) := mkResponse {
  res_ok : bool;
  res_status : N;
  res_body : Body A
}.

(** Payloads of the collaborators, fields as the program reads them. *)
Record Summary := mkSummary {
  total_value : option jsstring;
  unrealized_pl : option jsstring;
  total_dividends : option jsstring;
  position_count : option jsstring
}.

Record UpdateResult := mkUpdateResult {
  upd_status : option jsstring;
  upd_message : option jsstring;
  upd_chart_status : option jsstring;
  upd_summary : option Summary
}.

Record AppendResult := mkAppendResult {
  app_code : option Z;
  app_msg : option jsstring
}.

Record SymbolInfo := mkSymbolInfo {
  sector : option jsstring;
  earnings_date : option jsstring
}.

(** A news item of the remote-service variant, as the latest-news contract
    gives it: shaped like a Row, every field a string, with an optional
    [symbol_info] object ([None] for an absent or falsy one).  An item with
    a field that is not a string is not covered: on a truthy one the loop
    calls [.trim()] and throws. *)
Record NewsItem := mkNewsItem {
  item_fields : Row;
  symbol_info : option SymbolInfo
}.

(** The answer of the latest-news collaborator.  [news_items] is [None]
    when [news] is absent or any other value that cannot be iterated; a
    [news] that is a string is not covered. *)
Record NewsResult := mkNewsResult {
  news_status : option jsstring;
  news_message : option jsstring;
  news_items : option (list NewsItem);
  news_date : option jsstring
}.

(** The surroundings of one action: the content of the target-document
    input and the answers of the collaborators. *)
Record World := mkWorld {
  targetDocIdValue : jsstring;
  updatePortfolio : FetchResult UpdateResult;
  newsFile : FetchResult jsstring;
  chartFile : FetchResult unit;
  appendBlock : Request -> FetchResult AppendResult;
  latestNews : FetchResult NewsResult
}.

Inductive Outcome (A : Type) :=
| Return (value : A)
| Throw (message : jsstring).
Arguments Throw {A} message.

(** An action reads its surroundings and yields an outcome together with
    the events it caused, in order. *)
Definition Action (A : Type) : Type := World -> Outcome A * list Event.

Definition ret {A} (a : A) : Action A := fun _ => (Return a, []).

Definition bind {A B} (m : Action A) (f : A -> Action B) : Action B :=
  fun w =>
    match m w with
    | (Return a, tr1) => let '(o, tr2) := f a w in (o, tr1 ++ tr2)
    | (Throw e, tr1) => (Throw e, tr1)
    end.

Notation "x <- m ;; k" := (bind m (fun x => k))
  (at level 61, m at next level, right associativity).
Notation "m ;; k" := (bind m (fun _ => k))
  (at level 61, right associativity).

Definition throw {A} (message : jsstring) : Action A :=
  fun _ => (Throw message, []).

Definition emit (e : Event) : Action unit := fun _ => (Return tt, [e]).

Definition ask : Action World := fun w => (Return w, []).

(** [try { body } catch (e) { handler(e.message) } finally { finalizer }] *)
Definition tryCatchFinally {A} (body : Action A)
           (handler : jsstring -> Action A) (finalizer : Action unit)
  : Action A :=
  fun w =>
    let '(o1, tr1) := body w in
    let '(o2, tr2) :=
      match o1 with
      | Return a => (Return a, [])
      | Throw e => handler e w
      end in
    match finalizer w with
    | (Return _, tr3) => (o2, tr1 ++ tr2 ++ tr3)
    | (Throw e, tr3) => (Throw e, tr1 ++ tr2 ++ tr3)
    end.

Definition when (b : bool) (m : Action unit) : Action unit :=
  if b then m else ret tt.

Definition log (msg : jsstring) (type : LogType) : Action unit :=
  emit (ELog msg type).

Definition setDisabled (b : Button) (v : bool) : Action unit :=
  emit (ESetDisabled b v).

(** [await fetch(...)] against the collaborator [who]. *)
Definition fetch {A} (request : Request) (who : World -> FetchResult A)
  : Action (Response A) :=
  fun w =>
    match who w with
    | Rejected e => (Throw e, [EFetch request])
    | Responded ok status body =>
      (Return (mkResponse ok status body), [EFetch request])
    end.

(** [await response.json()], [await response.text()] *)
Definition decoded {A} (r : Response A) : Action A :=
  match res_body r with
  | Decoded a => ret a
  | Undecodable e => throw e
  end.

(** [document.getElementById('targetDocId').value.trim()] *)
Definition readTargetId : Action jsstring :=
  w <- ask ;; ret (trim (targetDocIdValue w)).

Definition trace {A} (m : Action A) (w : World) : list Event := snd (m w).

Definition isFetch (e : Event) : bool :=
  match e with EFetch _ => true | _ => false end.

Definition isLog (e : Event) : bool :=
  match e with ELog _ _ => true | _ => false end.

(** The remote calls and the log lines of a trace. *)
Definition remoteCalls (tr : list Event) : list Event := filter isFetch tr.
Definition logLines (tr : list Event) : list Event := filter isLog tr.

Definition nl : jsstring := [LF].
Definition dq : jsstring := [34].

(* ================================================================= *)
(** ** News rendering shared by both variants

    The loop [for (let i = 1; i <= 5; i++)] is textually the same in the two
    files; it reads the item by key and touches only [fullMd] and
    [hasNews]. *)

Definition groupKey (i : N) (suffix : string) : jsstring :=
  lit "news_" ++ of_N i ++ lit suffix.

(** [v && v.trim()] as a condition. *)
Definition present (v : option jsstring) : bool :=
  truthy v && truthy (option_map trim v).

(** [v.trim()] where the guard has established that [v] is a string. *)
Definition trimmed (v : option jsstring) : jsstring :=
  match v with
  | Some s => trim s
  | None => []
  end.

(** One round of the loop, on the state [(fullMd, hasNews)]. *)
Definition newsGroupStep (item : Row) (st : jsstring * bool) (i : N)
  : jsstring * bool :=
  let '(fullMd, hasNews) := st in
  let title := get item (groupKey i "_title") in
  let newsDate := get item (groupKey i "_date") in
  let link := get item (groupKey i "_link") in
  if present title && present link then
    let fullMd := fullMd ++ lit "- [" ++ trimmed title ++ lit "]("
                         ++ trimmed link ++ lit ")" in
    let fullMd := if present newsDate
                  then fullMd ++ lit " · " ++ trimmed newsDate
                  else fullMd in
    (fullMd ++ nl, true)
  else (fullMd, hasNews).

Definition groupIndices : list N := [1; 2; 3; 4; 5].

Definition fallbackLine : jsstring := lit "*(暂无新闻)*" ++ nl.

(** From [let hasNews = false] to the closing [fullMd += `\n`]. *)
Definition appendNews (item : Row) (fullMd : jsstring) : jsstring :=
  let '(fullMd, hasNews) :=
    fold_left (newsGroupStep item) groupIndices (fullMd, false) in
  let fullMd := if negb hasNews then fullMd ++ fallbackLine else fullMd in
  fullMd ++ nl.

(** [((thesis 'ticker'))] *)
Definition blockRef (thesis ticker : option jsstring) : jsstring :=
  lit "((" ++ tpl thesis ++ lit " '" ++ tpl ticker ++ lit "'))".

Definition documentHeading (date : option jsstring) : jsstring :=
  nl ++ lit "---" ++ nl ++ lit "# 📈 Portfolio News Update (" ++ tpl date
     ++ lit ")" ++ nl ++ nl.

Definition appendRequest (data parentID : jsstring) : Request :=
  mkRequest (lit "/api/block/appendBlock") POST true
            [(lit "data", data); (lit "dataType", lit "markdown");
             (lit "parentID", parentID)].

Definition BRIDGE_URL : jsstring := lit "http://127.0.0.1:5000/run-task".

Definition updateRequest : Request :=
  mkRequest BRIDGE_URL POST true [(lit "task", lit "update_portfolio")].

Definition validationError : Event := ELog (lit "错误: 请输入目标文档 ID") Error.

(** [for (const x of xs) { acc = body acc x }] *)
Fixpoint forOf {A B} (xs : list A) (body : B -> A -> Action B) (acc : B)
  : Action B :=
  match xs with
  | [] => ret acc
  | x :: rest => acc' <- body acc x ;; forOf rest body acc'
  end.

(** [xs.filter(item => item.thesis && item.thesis.trim()).length] *)
Definition linkedCount (xs : list Row) : N :=
  N.of_nat (length (filter (fun item => present (get item (lit "thesis"))) xs)).

(** The tail shared by the two [importNewsToSiyuan]: the outcome of the
    append call. *)
Definition reportNewsAppend (appendData : AppendResult) (items : list Row)
  : Action unit :=
  match app_code appendData with
  | Some 0%Z =>
    log (lit "🎉 新闻导入成功！已添加 " ++ of_N (N.of_nat (length items))
             ++ lit " 个持仓的新闻") Success ;;
    when (0 <? linkedCount items)
         (log (lit "🔗 其中 " ++ of_N (linkedCount items)
                   ++ lit " 个已链接到投资论文") Success)
  | _ => throw (lit "思源 API 错误: " ++ tpl (app_msg appendData))
  end.

(** [catch (e) { log(`❌ 失败: ${e.message}`, "error"); console.error(e); }] *)
Definition reportFailure (message : jsstring) : Action unit :=
  log (lit "❌ 失败: " ++ message) Error ;;
  emit (EConsoleError message).

Definition throwIf (b : bool) (message : jsstring) : Action unit :=
  if b then throw message else ret tt.

Definition isSuccess (v : option jsstring) : bool :=
  strict_eq v (Some (lit "success")).

(* ================================================================= *)
(** ** The direct-file variant *)

Module Optimized.

Definition SIYUAN_STORAGE_PATH : jsstring :=
  lit "/data/storage/petal/portfolio-importer".

Definition newsPath : jsstring :=
  SIYUAN_STORAGE_PATH ++ lit "/portfolio_news_history.csv".

Definition chartPath : jsstring :=
  SIYUAN_STORAGE_PATH ++ lit "/portfolio_sectors_unified.html".

Definition newsFileRequest : Request := mkRequest newsPath GET false [].

Definition chartFileRequest : Request := mkRequest chartPath HEAD false [].

Definition logSummary (summary : Summary) : Action unit :=
  log (lit "📊 投资组合概览:") Info ;;
  log (lit "   总价值: " ++ tpl (total_value summary)) Default ;;
  log (lit "   未实现盈亏: " ++ tpl (unrealized_pl summary)) Default ;;
  log (lit "   总股息: " ++ tpl (total_dividends summary)) Default ;;
  log (lit "   持仓数: " ++ tpl (position_count summary)) Default.

Definition runPortfolioUpdate : Action unit :=
  setDisabled WorkBtn true ;;
  emit EClearLog ;;
  log (lit "🚀 开始执行投资组合数据更新...") Info ;;
  tryCatchFinally
    (log (lit "📡 正在运行 portfolio_exposure.py...") Info ;;
     bridgeRes <- fetch updateRequest updatePortfolio ;;
     throwIf (negb (res_ok bridgeRes))
             (lit "HTTP错误: " ++ of_N (res_status bridgeRes)) ;;
     pyResult <- decoded bridgeRes ;;
     throwIf (negb (isSuccess (upd_status pyResult)))
             (lit "Python 脚本错误: " ++ tpl (upd_message pyResult)) ;;
     log (lit "✅ portfolio_history_unified.csv 已生成") Success ;;
     log (lit "✅ portfolio_news_history.csv 已生成") Success ;;
     (if isSuccess (upd_chart_status pyResult)
      then log (lit "✅ portfolio_sectors_unified.html 已生成") Success
      else when (strict_eq (upd_chart_status pyResult) (Some (lit "warning")))
                (log (lit "⚠️ 图表生成有警告，但数据已完成") Warning)) ;;
     match upd_summary pyResult with
     | Some summary => logSummary summary
     | None => ret tt
     end ;;
     log (lit "💡 提示: 现在可以导入新闻或图表到思源笔记（无需 bridge 运行）") Info)
    reportFailure
    (setDisabled WorkBtn false).

(** The body of [for (const item of newsData)]. *)
Definition renderItem (fullMd : jsstring) (item : Row) : Action jsstring :=
  let ticker := get item (lit "ticker") in
  let thesis := get item (lit "thesis") in
  log (lit "处理新闻: " ++ tpl ticker) Default ;;
  tickerDisplay <-
    (if present thesis
     then log (lit "  ✓ 已链接到论文: " ++ tpl thesis) Default ;;
          ret (Some (blockRef thesis ticker))
     else ret ticker) ;;
  let fullMd := fullMd ++ lit "## " ++ tpl tickerDisplay ++ nl ++ nl in
  ret (appendNews item fullMd).

(** [newsData[0].Date] *)
Definition firstDate (newsData : list Row) : option jsstring :=
  match newsData with
  | first :: _ => get first DateKey
  | [] => None
  end.

Definition importNewsToSiyuan : Action unit :=
  targetId <- readTargetId ;;
  if negb (truthy (Some targetId)) then emit validationError
  else
    setDisabled ImportNewsBtn true ;;
    log (lit "📰 开始导入最新新闻到思源笔记...") Info ;;
    tryCatchFinally
      (log (lit "📂 正在读取本地新闻数据...") Info ;;
       fileRes <- fetch newsFileRequest newsFile ;;
       throwIf (negb (res_ok fileRes))
               (lit "无法读取新闻文件: " ++ newsPath ++ lit ". 请先运行" ++ dq
                    ++ lit "更新投资组合数据" ++ dq) ;;
       csvText <- decoded fileRes ;;
       let newsData := parseNewsCSV csvText in
       throwIf (Nat.eqb (length newsData) 0) (lit "新闻数据为空") ;;
       log (lit "📝 正在构建 Markdown 格式...") Info ;;
       let date := firstDate newsData in
       fullMd <- forOf newsData renderItem (documentHeading date) ;;
       log (lit "📤 正在同步到思源笔记...") Info ;;
       appendRes <- fetch (appendRequest fullMd targetId)
                          (fun w => appendBlock w (appendRequest fullMd targetId)) ;;
       appendData <- decoded appendRes ;;
       reportNewsAppend appendData newsData)
      reportFailure
      (setDisabled ImportNewsBtn false).

Definition iframeHtml (src : jsstring) : jsstring :=
  nl ++ lit "<iframe src=" ++ dq ++ src ++ dq
     ++ lit " width=" ++ dq ++ lit "100%" ++ dq
     ++ lit " height=" ++ dq ++ lit "950px" ++ dq
     ++ lit " style=" ++ dq
     ++ lit "border:none; border-radius: 8px; box-shadow: 0 2px 8px rgba(0,0,0,0.1);"
     ++ dq ++ lit "></iframe>" ++ nl.

Definition importChartToSiyuan : Action unit :=
  targetId <- readTargetId ;;
  if negb (truthy (Some targetId)) then emit validationError
  else
    setDisabled ImportChartBtn true ;;
    log (lit "📊 开始导入交互式图表...") Info ;;
    tryCatchFinally
      (log (lit "📂 检查图表文件...") Info ;;
       testRes <- fetch chartFileRequest chartFile ;;
       throwIf (negb (res_ok testRes))
               (lit "图表文件不存在: " ++ chartPath ++ lit ". 请先运行" ++ dq
                    ++ lit "更新投资组合数据" ++ dq) ;;
       log (lit "✅ 图表文件已找到") Success ;;
       log (lit "📤 正在嵌入图表到思源笔记...") Info ;;
       appendRes <- fetch (appendRequest (iframeHtml chartPath) targetId)
                          (fun w => appendBlock w
                                      (appendRequest (iframeHtml chartPath) targetId)) ;;
       appendData <- decoded appendRes ;;
       match app_code appendData with
       | Some 0%Z =>
         log (lit "🎉 交互式图表导入成功！") Success ;;
         log (lit "💡 图表包含:") Info ;;
         log (lit "   - 扇形图: 板块配置") Default ;;
         log (lit "   - 扇形图: 风险类别配置") Default ;;
         log (lit "   - 日期滑块: 查看历史变化") Default ;;
         log (lit "   - 详细持仓: 盈亏、股息、新闻") Default
       | _ => throw (lit "思源 API 错误: " ++ tpl (app_msg appendData))
       end)
      reportFailure
      (setDisabled ImportChartBtn false).

Definition importFullPortfolio : Action unit :=
  targetId <- readTargetId ;;
  if negb (truthy (Some targetId)) then emit validationError
  else
    setDisabled WorkBtn true ;;
    setDisabled ImportNewsBtn true ;;
    setDisabled ImportChartBtn true ;;
    emit EClearLog ;;
    log (lit "🚀 开始执行完整导入流程...") Info ;;
    tryCatchFinally
      (log (nl ++ lit "=== 步骤 1/3: 更新投资组合数据 ===") Info ;;
       runPortfolioUpdate ;;
       emit (ETimeout 1000) ;;
       log (nl ++ lit "=== 步骤 2/3: 导入新闻 ===") Info ;;
       importNewsToSiyuan ;;
       log (nl ++ lit "=== 步骤 3/3: 导入交互式图表 ===") Info ;;
       importChartToSiyuan ;;
       log (nl ++ lit "🎊 完整导入流程执行成功！") Success)
      (fun message =>
         log (lit "❌ 流程中断: " ++ message) Error ;;
         emit (EConsoleError message))
      (setDisabled WorkBtn false ;;
       setDisabled ImportNewsBtn false ;;
       setDisabled ImportChartBtn false).

(** The four triggers of the user-facing surface. *)
Inductive Trigger := UpdateData | ImportNews | ImportChart | RunAll.

Definition handler (t : Trigger) : Action unit :=
  match t with
  | UpdateData => runPortfolioUpdate
  | ImportNews => importNewsToSiyuan
  | ImportChart => importChartToSiyuan
  | RunAll => importFullPortfolio
  end.

End Optimized.

(* ================================================================= *)
(** ** The remote-service variant ([widget.js]) *)

Module Widget.

Definition latestNewsRequest : Request :=
  mkRequest (lit "http://127.0.0.1:5000/get-latest-news") GET false [].

(** The annotation put after the heading when [symbol_info] is there. *)
Definition appendSymbolInfo (info : option SymbolInfo) (fullMd : jsstring)
  : jsstring :=
  match info with
  | Some symbol_info =>
    let fullMd :=
      fullMd ++ lit " · "
             ++ (if truthy (sector symbol_info) then tpl (sector symbol_info)
                 else lit "N/A") in
    if truthy (earnings_date symbol_info)
    then fullMd ++ lit " · 📅 " ++ tpl (earnings_date symbol_info)
    else fullMd
  | None => fullMd
  end.

(** The body of [for (const item of newsItems)]. *)
Definition renderItem (fullMd : jsstring) (item : NewsItem) : Action jsstring :=
  let ticker := get (item_fields item) (lit "ticker") in
  let thesis := get (item_fields item) (lit "thesis") in
  log (lit "处理新闻: " ++ tpl ticker) Default ;;
  tickerDisplay <-
    (if present thesis
     then log (lit "  ✓ 已链接到论文: " ++ tpl thesis) Default ;;
          ret (Some (blockRef thesis ticker))
     else ret ticker) ;;
  let fullMd := fullMd ++ lit "## " ++ tpl tickerDisplay in
  let fullMd := appendSymbolInfo (symbol_info item) fullMd in
  let fullMd := fullMd ++ nl ++ nl in
  ret (appendNews (item_fields item) fullMd).

(** [for (const item of newsItems)] throws when [newsData.news] is absent
    or cannot be iterated (the message is the engine's). *)
Definition buildMarkdown (newsItems : option (list NewsItem))
           (date : option jsstring) : Action jsstring :=
  match newsItems with
  | Some items => forOf items renderItem (documentHeading date)
  | None => throw (lit "newsItems is not iterable")
  end.

Definition importNewsToSiyuan : Action unit :=
  targetId <- readTargetId ;;
  if negb (truthy (Some targetId)) then emit validationError
  else
    setDisabled ImportNewsBtn true ;;
    log (lit "📰 开始导入最新新闻到思源笔记...") Info ;;
    tryCatchFinally
      (log (lit "📡 正在获取最新新闻数据...") Info ;;
       newsRes <- fetch latestNewsRequest latestNews ;;
       throwIf (negb (res_ok newsRes))
               (lit "HTTP错误: " ++ of_N (res_status newsRes)) ;;
       newsData <- decoded newsRes ;;
       throwIf (negb (isSuccess (news_status newsData)))
               (lit "获取新闻失败: " ++ tpl (news_message newsData)) ;;
       log (lit "📝 正在构建 Markdown 格式...") Info ;;
       let newsItems := news_items newsData in
       let date := news_date newsData in
       fullMd <- buildMarkdown newsItems date ;;
       log (lit "📤 正在同步到思源笔记...") Info ;;
       appendRes <- fetch (appendRequest fullMd targetId)
                          (fun w => appendBlock w (appendRequest fullMd targetId)) ;;
       appendData <- decoded appendRes ;;
       reportNewsAppend appendData
         (map item_fields (match newsItems with Some l => l | None => [] end)))
      reportFailure
      (setDisabled ImportNewsBtn false).

End Widget.

(* ================================================================= *)
(** ** The rendered document, read off the two loops

    [markdownOf build w] is the payload the loop [build] hands to the append
    call: the final value of [fullMd]. *)

Definition markdownOf (build : Action jsstring) (w : World) : option jsstring :=
  match build w with
  | (Return fullMd, _) => Some fullMd
  | (Throw _, _) => None
  end.

(** Direct-file variant: the document built from the rows [newsData] under
    the display date [date]. *)
Definition optimizedMarkdown (date : option jsstring) (newsData : list Row)
  : Action jsstring :=
  forOf newsData Optimized.renderItem (documentHeading date).

(** Remote-service variant: the document built from [newsItems]. *)
Definition widgetMarkdown (date : option jsstring) (newsItems : list NewsItem)
  : Action jsstring :=
  Widget.buildMarkdown (Some newsItems) date.

(** The text the remote-service variant puts after a heading. *)
Definition symbolInfoText (info : option SymbolInfo) : jsstring :=
  Widget.appendSymbolInfo info [].

(** The log lines one round of either loop writes. *)
Definition itemLog (item : Row) : list Event :=
  let ticker := get item (lit "ticker") in
  let thesis := get item (lit "thesis") in
  ELog (lit "处理新闻: " ++ tpl ticker) Default
  :: (if present thesis
      then [ELog (lit "  ✓ 已链接到论文: " ++ tpl thesis) Default]
      else []).

(* ================================================================= *)
(** ** The reading of the specification

    Definitions that follow the words of the specification, to be compared
    with the code above. *)

Module Spec.

(** The pairs a data line gives under the header names, from position
    [index] on. *)
Fixpoint cells (headers : list jsstring) (index : nat)
         (values : list jsstring) : Row :=
  match headers with
  | [] => []
  | header :: hs => (header, cell values index) :: cells hs (S index) values
  end.


(** The Record mapping the trimmed header names, in header order, to the
    trimmed values. *)
Definition zipRow (headers values : list jsstring) : Row :=
  combine headers (map trim values).

(** A data line with as many values as the header has names gives one
    Record, any other line gives none. *)
Definition lineRecords (headers : list jsstring) (line : jsstring) : list Row :=
  let values := split PIPE line in
  if Nat.eqb (length values) (length headers)
  then [zipRow headers values]
  else [].

(** Two records carry the same [Date]. *)
Definition sameDate (first row : Row) : Prop :=
  get row DateKey = get first DateKey.

(** "non-blank after trimming", of a field that may be absent *)
Definition nonBlank (v : option jsstring) : Prop :=
  exists s, v = Some s /\ trim s <> [].

Definition nonBlankb (v : option jsstring) : bool :=
  match v with
  | Some s => negb (str_eqb (trim s) [])
  | None => false
  end.

(** The list line of news group [i], when the group has one: link text the
    trimmed title, target the trimmed link, the trimmed date after a middle
    dot when the group has a date. *)
Definition linkLine (item : Row) (i : N) : option jsstring :=
  let title := get item (groupKey i "_title") in
  let date := get item (groupKey i "_date") in
  let link := get item (groupKey i "_link") in
  if nonBlankb title && nonBlankb link
  then Some (lit "- [" ++ trimmed title ++ lit "](" ++ trimmed link ++ lit ")"
                 ++ (if nonBlankb date then lit " · " ++ trimmed date else [])
                 ++ nl)
  else None.

(** The link lines of a record: groups 1 to 5 in order, skipping the groups
    without a line. *)
Definition groupLines (item : Row) (i : N) : list jsstring :=
  match linkLine item i with
  | Some line => [line]
  | None => []
  end.

Definition linkLines (item : Row) : list jsstring :=
  flat_map (groupLines item) groupIndices.

(** The lines under a heading: the link lines, or the one placeholder. *)
Definition newsLines (item : Row) : list jsstring :=
  match linkLines item with
  | [] => [fallbackLine]
  | ls => ls
  end.

(** The display label of a record. *)
Definition label (item : Row) : jsstring :=
  let ticker := get item (lit "ticker") in
  let thesis := get item (lit "thesis") in
  if nonBlankb thesis then blockRef thesis ticker else tpl ticker.

(** The section of a record: the heading made of the label, whatever the
    variant puts directly after it, then the lines and the separating blank
    line. *)
Definition section (item : Row) (afterHeading : jsstring) : jsstring :=
  lit "## " ++ label item ++ afterHeading ++ nl ++ nl
      ++ concat (newsLines item) ++ nl.

(** The prefix-run of records sharing the first record's [Date]. *)
Fixpoint takeRun (latestDate : option jsstring) (data : list Row) : list Row :=
  match data with
  | [] => []
  | row :: rest =>
    if strict_eq (get row DateKey) latestDate
    then row :: takeRun latestDate rest
    else []
  end.

Definition prefixRun (data : list Row) : list Row :=
  match data with
  | [] => []
  | first :: _ => takeRun (get first DateKey) data
  end.

(** Order-preserving subsequence. *)
Inductive Subseq {A : Type} : list A -> list A -> Prop :=
| Subseq_nil : Subseq [] []
| Subseq_keep x l1 l2 : Subseq l1 l2 -> Subseq (x :: l1) (x :: l2)
| Subseq_drop x l1 l2 : Subseq l1 l2 -> Subseq l1 (x :: l2).

(** *** The lines under a heading, from the field names written out

    These definitions use neither the program's key builder nor its
    trimming helper: the fifteen field names are spelled out and every
    trimming is an explicit [trim]. *)

Definition newsGroupFields : list (jsstring * jsstring * jsstring) :=
  [(lit "news_1_title", lit "news_1_date", lit "news_1_link");
   (lit "news_2_title", lit "news_2_date", lit "news_2_link");
   (lit "news_3_title", lit "news_3_date", lit "news_3_link");
   (lit "news_4_title", lit "news_4_date", lit "news_4_link");
   (lit "news_5_title", lit "news_5_date", lit "news_5_link")].

(** The trimmed text of a field that is present and non-blank after
    trimming. *)
Definition trimmedText (v : option jsstring) : option jsstring :=
  match v with
  | Some s => match trim s with
              | [] => None
              | c :: t => Some (c :: t)
              end
  | None => None
  end.

(** The list line of one group, from its title, date and link: one line
    when title and link are both non-blank, none otherwise. *)
Definition listLine (title date link : option jsstring) : list jsstring :=
  match trimmedText title, trimmedText link with
  | Some text, Some target =>
    [lit "- [" ++ text ++ lit "](" ++ target ++ lit ")"
         ++ match trimmedText date with
            | Some day => lit " · " ++ day
            | None => []
            end
         ++ [10]]
  | _, _ => []
  end.

Definition listLines (item : Row) : list jsstring :=
  flat_map (fun fields : jsstring * jsstring * jsstring =>
              let '(title, date, link) := fields in
              listLine (get item title) (get item date) (get item link))
           newsGroupFields.

End Spec.

(* ================================================================= *)
(** ** The remote-service variant: update, chart import and pipeline *)

Module WidgetPipeline.

(** Payloads of the chart collaborators. *)
Record ChartResult := mkChartResult {
  gen_status : option jsstring;
  gen_message : option jsstring;
  gen_chart_path : option jsstring
}.

Record CopyResult := mkCopyResult {
  copy_status : option jsstring;
  copy_message : option jsstring;
  copy_asset_path : option jsstring
}.

(** The summary lines are those of the direct-file variant, word for
    word. *)
Definition runPortfolioUpdate : Action unit :=
  setDisabled WorkBtn true ;;
  emit EClearLog ;;
  log (lit "🚀 开始执行投资组合数据更新...") Info ;;
  tryCatchFinally
    (log (lit "📡 正在运行 portfolio_exposure_unified.py...") Info ;;
     bridgeRes <- fetch updateRequest updatePortfolio ;;
     throwIf (negb (res_ok bridgeRes))
             (lit "HTTP错误: " ++ of_N (res_status bridgeRes)) ;;
     pyResult <- decoded bridgeRes ;;
     throwIf (negb (isSuccess (upd_status pyResult)))
             (lit "Python 脚本错误: " ++ tpl (upd_message pyResult)) ;;
     log (lit "✅ portfolio_history_unified.csv 已更新") Success ;;
     log (lit "✅ portfolio_news_history.csv 已更新") Success ;;
     match upd_summary pyResult with
     | Some summary => Optimized.logSummary summary
     | None => ret tt
     end ;;
     log (lit "💡 提示: 现在可以导入新闻或图表到思源笔记") Info)
    reportFailure
    (setDisabled WorkBtn false).

Definition generateChartRequest : Request :=
  mkRequest (lit "http://127.0.0.1:5000/generate-chart") POST true [].

(** [JSON.stringify({ chart_path: chartData.chart_path })] leaves an
    undefined [chart_path] out. *)
Definition copyChartRequest (chart_path : option jsstring) : Request :=
  mkRequest (lit "http://127.0.0.1:5000/copy-chart-to-siyuan") POST true
            match chart_path with
            | Some path => [(lit "chart_path", path)]
            | None => []
            end.

Section ChartCollaborators.

(** Answers of the chart generation and of the copy to the assets
    directory. *)
Variable generateChart : FetchResult ChartResult.
Variable copyChart : Request -> FetchResult CopyResult.

Definition importChartToSiyuan : Action unit :=
  targetId <- readTargetId ;;
  if negb (truthy (Some targetId)) then emit validationError
  else
    setDisabled ImportChartBtn true ;;
    log (lit "📊 开始导入交互式图表...") Info ;;
    tryCatchFinally
      (log (lit "📡 正在生成可视化图表...") Info ;;
       chartRes <- fetch generateChartRequest (fun _ => generateChart) ;;
       throwIf (negb (res_ok chartRes))
               (lit "HTTP错误: " ++ of_N (res_status chartRes)) ;;
       chartData <- decoded chartRes ;;
       throwIf (negb (isSuccess (gen_status chartData)))
               (lit "生成图表失败: " ++ tpl (gen_message chartData)) ;;
       log (lit "✅ 图表已生成") Success ;;
       log (lit "📤 正在复制图表到思源 assets 目录...") Info ;;
       copyRes <- fetch (copyChartRequest (gen_chart_path chartData))
                        (fun _ => copyChart
                                    (copyChartRequest (gen_chart_path chartData))) ;;
       throwIf (negb (res_ok copyRes))
               (lit "HTTP错误: " ++ of_N (res_status copyRes)) ;;
       copyData <- decoded copyRes ;;
       throwIf (negb (isSuccess (copy_status copyData)))
               (lit "复制失败: " ++ tpl (copy_message copyData)) ;;
       let assetPath := copy_asset_path copyData in
       log (lit "✅ 图表已复制到: " ++ tpl assetPath) Success ;;
       log (lit "📤 正在嵌入图表到思源笔记...") Info ;;
       appendRes <- fetch (appendRequest (Optimized.iframeHtml (tpl assetPath)) targetId)
                          (fun w => appendBlock w
                                      (appendRequest
                                         (Optimized.iframeHtml (tpl assetPath))
                                         targetId)) ;;
       appendData <- decoded appendRes ;;
       match app_code appendData with
       | Some 0%Z =>
         log (lit "🎉 交互式图表导入成功！") Success ;;
         log (lit "💡 图表包含:") Info ;;
         log (lit "   - 扇形图: 板块配置") Default ;;
         log (lit "   - 扇形图: 风险类别配置") Default ;;
         log (lit "   - 日期滑块: 查看历史变化") Default ;;
         log (lit "   - 详细持仓: 盈亏、股息、新闻") Default
       | _ => throw (lit "思源 API 错误: " ++ tpl (app_msg appendData))
       end)
      reportFailure
      (setDisabled ImportChartBtn false).

Definition importFullPortfolio : Action unit :=
  targetId <- readTargetId ;;
  if negb (truthy (Some targetId)) then emit validationError
  else
    setDisabled WorkBtn true ;;
    setDisabled ImportNewsBtn true ;;
    setDisabled ImportChartBtn true ;;
    emit EClearLog ;;
    log (lit "🚀 开始执行完整导入流程...") Info ;;
    tryCatchFinally
      (log (nl ++ lit "=== 步骤 1/3: 更新投资组合数据 ===") Info ;;
       runPortfolioUpdate ;;
       log (nl ++ lit "=== 步骤 2/3: 导入新闻 ===") Info ;;
       Widget.importNewsToSiyuan ;;
       log (nl ++ lit "=== 步骤 3/3: 导入交互式图表 ===") Info ;;
       importChartToSiyuan ;;
       log (nl ++ lit "🎊 完整导入流程执行成功！") Success)
      (fun message =>
         log (lit "❌ 流程中断: " ++ message) Error ;;
         emit (EConsoleError message))
      (setDisabled WorkBtn false ;;
       setDisabled ImportNewsBtn false ;;
       setDisabled ImportChartBtn false).

End ChartCollaborators.

End WidgetPipeline.

(* ================================================================= *)
(** ** What a trace leaves behind *)

Definition button_eqb (a b : Button) : bool :=
  match a, b with
  | WorkBtn, WorkBtn => true
  | ImportNewsBtn, ImportNewsBtn => true
  | ImportChartBtn, ImportChartBtn => true
  | _, _ => false
  end.

(** The [disabled] flags of the three buttons. *)
Definition Buttons : Type := Button -> bool.

Definition allEnabled : Buttons := fun _ => false.

Definition buttonStep (st : Buttons) (e : Event) : Buttons :=
  match e with
  | ESetDisabled b v => fun b' => if button_eqb b' b then v else st b'
  | _ => st
  end.

Definition buttonsAfter (tr : list Event) (st : Buttons) : Buttons :=
  fold_left buttonStep tr st.

(** The lines of the log panel: [log] appends one,
    [logOutput.innerHTML = ''] removes them all. *)
Definition panelStep (panel : list (jsstring * LogType)) (e : Event)
  : list (jsstring * LogType) :=
  match e with
  | ELog msg type => panel ++ [(msg, type)]
  | EClearLog => []
  | _ => panel
  end.

Definition panelAfter (tr : list Event) (panel : list (jsstring * LogType))
  : list (jsstring * LogType) :=
  fold_left panelStep tr panel.

(** Every event an action causes, in every surroundings, passes [p]. *)
Definition emitsOnly {A} (p : Event -> bool) (m : Action A) : Prop :=
  forall w, forallb p (snd (m w)) = true.

Definition notButton (e : Event) : bool :=
  match e with ESetDisabled _ _ => false | _ => true end.

Definition notFetch (e : Event) : bool := negb (isFetch e).

(** [e] is not the log line [msg]. *)
Definition notLine (msg : jsstring) (e : Event) : bool :=
  match e with
  | ELog m _ => negb (str_eqb m msg)
  | _ => true
  end.

Definition isErrorLine (e : Event) : bool :=
  match e with ELog _ Error => true | _ => false end.

Definition isSuccessLine (e : Event) : bool :=
  match e with ELog _ Success => true | _ => false end.

(** The two lines the full pipeline writes before its first step. *)
Definition pipelineOpening : jsstring := lit "🚀 开始执行完整导入流程...".

Definition stepOneHeading : jsstring :=
  nl ++ lit "=== 步骤 1/3: 更新投资组合数据 ===".

(** The update collaborator answered with a 2xx status and a body whose
    status flag is [success]. *)
Definition updateSucceeded (w : World) : bool :=
  match updatePortfolio w with
  | Responded true _ (Decoded pyResult) => isSuccess (upd_status pyResult)
  | _ => false
  end.

(** The document the direct-file variant builds from the text of the news
    file. *)
Definition newsDocument (csvText : jsstring) : jsstring :=
  let newsData := parseNewsCSV csvText in
  documentHeading (Optimized.firstDate newsData)
  ++ concat (map (fun item => Spec.section item []) newsData).

(** The host accepted the append of the news document: the news file was
    served, its latest snapshot is non-empty, and the answer to the append
    of the rendered snapshot decodes to the code 0. *)
Definition newsAppendAccepted (w : World) : bool :=
  truthy (Some (trim (targetDocIdValue w)))
  && match newsFile w with
     | Responded true _ (Decoded csvText) =>
       match parseNewsCSV csvText with
       | [] => false
       | _ =>
         match appendBlock w (appendRequest (newsDocument csvText)
                                            (trim (targetDocIdValue w))) with
         | Responded _ _ (Decoded appendData) =>
           match app_code appendData with
           | Some 0%Z => true
           | _ => false
           end
         | _ => false
         end
       end
     | _ => false
     end.

(** The document the remote-service variant builds from the answer of the
    latest-news collaborator. *)
Definition widgetDocument (date : option jsstring) (newsItems : list NewsItem)
  : jsstring :=
  documentHeading date
  ++ concat (map (fun item => Spec.section (item_fields item)
                                           (symbolInfoText (symbol_info item)))
                 newsItems).

(* ================================================================= *)
(** ** Sample inputs *)

(** The end-to-end scenario of the specification. *)
Definition sampleHeader : jsstring :=
  lit "Date|ticker|thesis|news_1_title|news_1_date|news_1_link".

Definition sampleLines : list jsstring :=
  [lit "2024-01-05|AAPL|thesis123|Apple event|2024-01-04|http://x";
   lit "2024-01-04|MSFT||||"].

Definition sampleCsv : jsstring :=
  sampleHeader ++ nl ++ nth 0 sampleLines [] ++ nl ++ nth 1 sampleLines [].

(** A header naming one column twice. *)
Definition twiceCsv : jsstring := lit "a|a" ++ nl ++ lit "1|2".

(** A data line with fewer values than the header has names. *)
Definition shortLineCsv : jsstring := lit "a|b" ++ nl ++ lit "c".

Definition datedRow (date ticker : string) : Row :=
  [(DateKey, lit date); (lit "ticker", lit ticker)].

(** Dates [D2, D2, D1] and [D2, D1, D2]. *)
Definition runThenOlder : list Row :=
  [datedRow "D2" "A"; datedRow "D2" "B"; datedRow "D1" "C"].

Definition sampleItems : list NewsItem :=
  [mkNewsItem
     [(lit "ticker", lit "AAPL"); (lit "thesis", lit "thesis123");
      (lit "news_1_title", lit "Apple event");
      (lit "news_1_date", lit "2024-01-04");
      (lit "news_1_link", lit "http://x")] None;
   mkNewsItem [(lit "ticker", lit "MSFT"); (lit "thesis", [])] None].

(** Collaborators: an update that answers with a failure flag, an update
    that answers HTTP 500, files left by an earlier run, a host that accepts
    every append. *)
Definition updateReportsError : FetchResult UpdateResult :=
  Responded true 200
    (Decoded (mkUpdateResult (Some (lit "error"))
                             (Some (lit "yfinance unavailable")) None None)).

Definition updateHttp500 : FetchResult UpdateResult :=
  Responded false 500 (Undecodable (lit "Unexpected end of JSON input")).

Definition acceptAppend (request : Request) : FetchResult AppendResult :=
  Responded true 200 (Decoded (mkAppendResult (Some 0%Z) None)).

Definition earlierRunWorld (target : jsstring)
           (update : FetchResult UpdateResult) : World :=
  mkWorld target update
          (Responded true 200 (Decoded sampleCsv))
          (Responded true 200 (Decoded tt))
          acceptAppend
          (Responded true 200
             (Decoded (mkNewsResult (Some (lit "success")) None
                                    (Some sampleItems)
                                    (Some (lit "2024-01-05"))))).

Definition sampleTarget : jsstring := lit "20240105093000-abcdefg".

Definition failedUpdateWorld : World :=
  earlierRunWorld sampleTarget updateReportsError.

Definition http500World : World := earlierRunWorld sampleTarget updateHttp500.

Definition blankTargetWorld : World :=
  earlierRunWorld (lit "   ") updateReportsError.

(** A chart generation and a copy that both succeed. *)
Definition chartGenerated : FetchResult WidgetPipeline.ChartResult :=
  Responded true 200
    (Decoded (WidgetPipeline.mkChartResult
                (Some (lit "success")) None
                (Some (lit "/tmp/portfolio_sectors_unified.html")))).

Definition chartCopied (request : Request)
  : FetchResult WidgetPipeline.CopyResult :=
  Responded true 200
    (Decoded (WidgetPipeline.mkCopyResult
                (Some (lit "success")) None
                (Some (lit "assets/portfolio_sectors_unified.html")))).

(** A file whose names and values are padded with blanks. *)
Definition paddedCsv : jsstring :=
  lit " Date | ticker " ++ nl ++ lit " 2024-01-05 |  AAPL  ".

Definition dateComesBack : list Row :=
  [datedRow "D2" "A"; datedRow "D1" "B"; datedRow "D2" "C"].

(* ================================================================= *)
(** * Properties *)

Unset Implicit Arguments.

(** ** Strings *)

Example decode_middle_dot : lit " · " = [32; 183; 32].
Proof. reflexivity. Qed.

Example decode_chart_emoji : lit "📈" = [55357; 56520].
Proof. reflexivity. Qed.

Example decode_cjk : lit "暂无" = [26242; 26080].
Proof. reflexivity. Qed.

Example of_N_3 : of_N 3 = lit "3".
Proof. reflexivity. Qed.

Example trim_both_ends : trim ([32; 9] ++ lit "ab c" ++ [13; 10]) = lit "ab c".
Proof. reflexivity. Qed.

Example split_pipes : split PIPE (lit "a||b|") = [lit "a"; []; lit "b"; []].
Proof. reflexivity. Qed.

Lemma str_eqb_spec (s t : jsstring) : str_eqb s t = true <-> s = t.
Proof.
  revert t; induction s as [|a s IH]; intros [|b t]; simpl;
    try (split; [discriminate | discriminate]); try tauto.
  unfold char_eqb. rewrite andb_true_iff, N.eqb_eq, IH.
  split; [intros [-> ->]; reflexivity | intros H; inversion H; auto].
Qed.

Lemma str_eqb_refl (s : jsstring) : str_eqb s s = true.
Proof. apply str_eqb_spec; reflexivity. Qed.

Lemma str_eqb_neq (s t : jsstring) : str_eqb s t = false <-> s <> t.
Proof.
  rewrite <- str_eqb_spec. destruct (str_eqb s t); split; congruence.
Qed.

Lemma strict_eq_spec (a b : option jsstring) : strict_eq a b = true <-> a = b.
Proof.
  destruct a as [s|], b as [t|]; simpl; try (split; congruence).
  rewrite str_eqb_spec. split; congruence.
Qed.

Lemma strict_eq_refl (a : option jsstring) : strict_eq a a = true.
Proof. apply strict_eq_spec; reflexivity. Qed.

Lemma trim_nil : trim [] = [].
Proof. reflexivity. Qed.

Lemma split_length_pos (sep : char) (s : jsstring) :
  (1 <= length (split sep s))%nat.
Proof.
  induction s as [|c t IH]; simpl; [lia|].
  destruct (char_eqb c sep); simpl; [lia|].
  destruct (split sep t); simpl in *; lia.
Qed.

(** The program's test [v && v.trim()] is the specification's "non-blank
    after trimming". *)
Lemma present_nonBlankb (v : option jsstring) : present v = Spec.nonBlankb v.
Proof.
  destruct v as [s|]; [|reflexivity].
  unfold present, Spec.nonBlankb; simpl.
  destruct s as [|c s]; [reflexivity|].
  destruct (trim (c :: s)); reflexivity.
Qed.

Lemma nonBlankb_spec (v : option jsstring) :
  Spec.nonBlankb v = true <-> Spec.nonBlank v.
Proof.
  unfold Spec.nonBlank; destruct v as [s|]; simpl.
  - rewrite negb_true_iff, str_eqb_neq. split.
    + intros H; exists s; auto.
    + intros [s' [E H]]; inversion E; subst; auto.
  - split; [discriminate | intros [s [E _]]; discriminate].
Qed.

(** ** Rows *)

Lemma assign_fresh (k v : jsstring) (r : Row) :
  ~ In k (keys r) -> assign k v r = r ++ [(k, v)].
Proof.
  induction r as [|[k' v'] t IH]; simpl; intros H; [reflexivity|].
  destruct (str_eqb k k') eqn:E.
  - apply str_eqb_spec in E. subst. tauto.
  - rewrite IH; tauto.
Qed.

Lemma keys_cells (headers : list jsstring) (index : nat) (values : list jsstring) :
  keys (Spec.cells headers index values) = headers.
Proof.
  revert index; induction headers as [|h hs IH]; intros index; simpl;
    [reflexivity | now rewrite IH].
Qed.

Lemma fillRow_distinct (headers : list jsstring) :
  forall index values row,
    NoDup (keys row ++ headers) ->
    ~ In (lit "__proto__") headers ->
    fillRow headers index values row = row ++ Spec.cells headers index values.
Proof.
  induction headers as [|h hs IH]; intros index values row ND NP; simpl.
  - now rewrite app_nil_r.
  - unfold set. destruct (str_eqb h (lit "__proto__")) eqn:E.
    + apply str_eqb_spec in E. exfalso. apply NP. left. auto.
    + assert (Hfresh : ~ In h (keys row)).
      { intros Hin. apply NoDup_remove_2 in ND. apply ND.
        apply in_or_app. auto. }
      rewrite (assign_fresh _ _ _ Hfresh).
      rewrite IH.
      * rewrite <- app_assoc. reflexivity.
      * unfold keys in *. rewrite map_app. simpl. rewrite <- app_assoc. exact ND.
      * intros Hin. apply NP. right. exact Hin.
Qed.

Lemma cell_trim (values : list jsstring) (index : nat) (v : jsstring) :
  nth_error values index = Some v -> cell values index = trim v.
Proof.
  unfold cell. intros ->. destruct v; reflexivity.
Qed.

Lemma skipn_cons_inv {A : Type} (i : nat) :
  forall (l : list A) (v : A) (rest : list A),
    skipn i l = v :: rest -> nth_error l i = Some v /\ skipn (S i) l = rest.
Proof.
  induction i as [|i IH]; intros [|x l] v rest H; simpl in H; try discriminate.
  - inversion H; subst; split; reflexivity.
  - apply IH in H. exact H.
Qed.

Lemma cells_combine (headers : list jsstring) :
  forall index values,
    length (skipn index values) = length headers ->
    Spec.cells headers index values
    = combine headers (map trim (skipn index values)).
Proof.
  induction headers as [|h hs IH]; intros index values L; simpl; [reflexivity|].
  destruct (skipn index values) as [|v rest] eqn:E; simpl in L; [discriminate|].
  destruct (skipn_cons_inv _ _ _ _ E) as [Hn Hs].
  rewrite (cell_trim _ _ _ Hn). simpl.
  rewrite IH by (rewrite Hs; lia).
  rewrite Hs. reflexivity.
Qed.

(** ** The parse loop *)

Lemma parseLines_flat_map (headers lines : list jsstring) :
  forall data,
    parseLines headers lines data = data ++ flat_map (lineRows headers) lines.
Proof.
  induction lines as [|line rest IH]; intros data; simpl.
  - now rewrite app_nil_r.
  - unfold lineRows at 1.
    destruct (Nat.eqb (length (split PIPE line)) (length headers)); simpl.
    + rewrite IH, <- app_assoc. reflexivity.
    + apply IH.
Qed.

Lemma parsedRows_lines (csvText headerLine : jsstring) (rest : list jsstring) :
  csvLines csvText = headerLine :: rest ->
  parsedRows csvText = flat_map (lineRows (headerNames headerLine)) rest.
Proof.
  intros E. unfold parsedRows. rewrite E.
  destruct rest as [|l rest]; [reflexivity|].
  change (Nat.ltb (length (headerLine :: l :: rest)) 2) with false.
  cbv iota. rewrite parseLines_flat_map. reflexivity.
Qed.

Lemma parseNewsCSV_stages (csvText : jsstring) :
  parseNewsCSV csvText = latestSnapshot (parsedRows csvText).
Proof.
  unfold parseNewsCSV, parsedRows.
  destruct (Nat.ltb (length (csvLines csvText)) 2); [reflexivity|].
  destruct (csvLines csvText); reflexivity.
Qed.

Lemma lineRows_distinct (headers : list jsstring) (line : jsstring) :
  NoDup headers ->
  ~ In (lit "__proto__") headers ->
  lineRows headers line = Spec.lineRecords headers line.
Proof.
  intros ND NP. unfold lineRows, Spec.lineRecords, Spec.zipRow.
  destruct (Nat.eqb (length (split PIPE line)) (length headers)) eqn:E;
    [|reflexivity].
  apply Nat.eqb_eq in E.
  rewrite fillRow_distinct by assumption.
  rewrite cells_combine by exact E.
  reflexivity.
Qed.

Lemma get_zipRow (headers : list jsstring) :
  forall values j header value,
    NoDup headers ->
    nth_error headers j = Some header ->
    nth_error values j = Some value ->
    get (Spec.zipRow headers values) header = Some (trim value).
Proof.
  unfold Spec.zipRow.
  induction headers as [|h hs IH]; intros values j header value ND Hh Hv.
  - destruct j; discriminate.
  - destruct values as [|v vs]; [destruct j; discriminate|].
    inversion ND as [|? ? Hnotin ND']; subst.
    destruct j as [|j]; simpl in Hh, Hv.
    + inversion Hh; inversion Hv; subst. simpl.
      now rewrite str_eqb_refl.
    + simpl. destruct (str_eqb header h) eqn:E.
      * apply str_eqb_spec in E. subst h.
        exfalso. apply Hnotin. eapply nth_error_In; eauto.
      * eapply IH; eauto.
Qed.

(** ** The selector *)

Lemma latestSnapshot_cons (first : Row) (rest : list Row) :
  latestSnapshot (first :: rest)
  = first :: filter (fun row => strict_eq (get row DateKey) (get first DateKey)) rest.
Proof.
  unfold latestSnapshot. simpl. now rewrite strict_eq_refl.
Qed.

Lemma latestSnapshot_nil_iff (data : list Row) :
  latestSnapshot data = [] <-> data = [].
Proof.
  destruct data as [|first rest].
  - split; reflexivity.
  - rewrite latestSnapshot_cons. split; discriminate.
Qed.

Lemma filter_Subseq {A : Type} (p : A -> bool) (l : list A) :
  Spec.Subseq (filter p l) l.
Proof.
  induction l as [|x l IH]; simpl.
  - constructor.
  - destruct (p x); constructor; exact IH.
Qed.

Lemma filter_none {A : Type} (p : A -> bool) (l : list A) :
  (forall x, In x l -> p x = false) -> filter p l = [].
Proof.
  induction l as [|x l IH]; simpl; intros H; [reflexivity|].
  rewrite (H x) by auto. apply IH. intros y Hy. apply H. auto.
Qed.

Lemma filter_takeRun (latestDate : option jsstring) (data : list Row) :
  filter (fun row => strict_eq (get row DateKey) latestDate) data
  = Spec.takeRun latestDate data
    ++ filter (fun row => strict_eq (get row DateKey) latestDate)
         (skipn (length (Spec.takeRun latestDate data)) data).
Proof.
  induction data as [|row rest IH]; simpl; [reflexivity|].
  destruct (strict_eq (get row DateKey) latestDate) eqn:E; simpl.
  - now rewrite <- IH.
  - now rewrite E.
Qed.

Lemma flat_map_nil_iff {A B : Type} (f : A -> list B) (l : list A) :
  flat_map f l = [] <-> forall x, In x l -> f x = [].
Proof.
  induction l as [|x l IH]; simpl.
  - split; [intros _ y [] | reflexivity].
  - split.
    + intros H. apply app_eq_nil in H. destruct H as [Hx Hl].
      intros y [<-|Hy]; [exact Hx | now apply IH].
    + intros H. rewrite (H x) by auto. apply IH. intros y Hy. apply H. auto.
Qed.

(* ----------------------------------------------------------------- *)
(** ** Parser *)

(** C3 (as amended).  For every input whose header line gives pairwise
    distinct trimmed names, none of them [__proto__], the rows parsed by
    [parseNewsCSV] are, line by line: one Record mapping the trimmed header
    names, in header order, to the trimmed values for each data line with as
    many pipe-delimited values as the header has names (an empty value
    becomes the empty string), and nothing for a line with another count;
    the lines after such a line are still parsed. *)
Theorem parsed_rows_zip_header
        (csvText headerLine : jsstring) (rest : list jsstring) :
  csvLines csvText = headerLine :: rest ->
  NoDup (headerNames headerLine) ->
  ~ In (lit "__proto__") (headerNames headerLine) ->
  parsedRows csvText
  = flat_map (Spec.lineRecords (headerNames headerLine)) rest
  /\ forall line j header value,
      length (split PIPE line) = length (headerNames headerLine) ->
      nth_error (headerNames headerLine) j = Some header ->
      nth_error (split PIPE line) j = Some value ->
      Spec.lineRecords (headerNames headerLine) line
      = [Spec.zipRow (headerNames headerLine) (split PIPE line)]
      /\ get (Spec.zipRow (headerNames headerLine) (split PIPE line)) header
         = Some (trim value).
Proof.
  intros E ND NP. split.
  - rewrite (parsedRows_lines _ _ _ E).
    apply flat_map_ext. intros line. now apply lineRows_distinct.
  - intros line j header value L Hh Hv. split.
    + unfold Spec.lineRecords. rewrite L, Nat.eqb_refl. reflexivity.
    + eapply get_zipRow; eauto.
Qed.

Ltac distinct_names :=
  repeat (constructor; [simpl; intuition discriminate|]); constructor.

Lemma parsed_rows_zip_header_sample :
  csvLines sampleCsv = sampleHeader :: sampleLines
  /\ NoDup (headerNames sampleHeader)
  /\ ~ In (lit "__proto__") (headerNames sampleHeader)
  /\ parsedRows sampleCsv
     = flat_map (Spec.lineRecords (headerNames sampleHeader)) sampleLines.
Proof.
  assert (E : csvLines sampleCsv = sampleHeader :: sampleLines) by reflexivity.
  assert (ND : NoDup (headerNames sampleHeader)) by (vm_compute; distinct_names).
  assert (NP : ~ In (lit "__proto__") (headerNames sampleHeader))
    by (vm_compute; intuition discriminate).
  split; [exact E|]. split; [exact ND|]. split; [exact NP|].
  exact (proj1 (parsed_rows_zip_header sampleCsv sampleHeader sampleLines
                                       E ND NP)).
Defined.

(** With the header [a|a] and the data line [1|2] the one parsed row holds
    [a = 2]: the name at position 0 is not mapped to the value at
    position 0. *)
Lemma duplicate_header_keeps_last_value :
  csvLines twiceCsv = [lit "a|a"; lit "1|2"]
  /\ headerNames (lit "a|a") = [lit "a"; lit "a"]
  /\ split PIPE (lit "1|2") = [lit "1"; lit "2"]
  /\ parsedRows twiceCsv = [[(lit "a", lit "2")]]
  /\ parsedRows twiceCsv
     <> flat_map (Spec.lineRecords (headerNames (lit "a|a"))) [lit "1|2"]
  /\ (forall row, In row (parsedRows twiceCsv) ->
                  get row (lit "a") <> Some (trim (lit "1"))).
Proof.
  repeat split; try reflexivity.
  - vm_compute. discriminate.
  - intros row Hin. vm_compute in Hin. destruct Hin as [<-|[]].
    vm_compute. discriminate.
Qed.

(** A column named [__proto__] leaves no field in the row. *)
Example proto_header_is_dropped :
  parsedRows (lit "__proto__|b" ++ nl ++ lit "1|2") = [[(lit "b", lit "2")]].
Proof. reflexivity. Qed.

(** C4 (as amended).  [parseNewsCSV] returns an empty Record Set exactly
    when the trimmed input has fewer than 2 lines or no data line has as
    many pipe-delimited values as the header has names. *)
Theorem parseNewsCSV_empty_iff (csvText : jsstring) :
  parseNewsCSV csvText = [] <->
  (length (csvLines csvText) < 2)%nat
  \/ (forall line, In line (tl (csvLines csvText)) ->
        length (split PIPE line)
        <> length (headerNames (hd [] (csvLines csvText)))).
Proof.
  rewrite parseNewsCSV_stages, latestSnapshot_nil_iff.
  destruct (csvLines csvText) as [|headerLine rest] eqn:E.
  - unfold parsedRows. rewrite E. simpl. split; [left; lia | reflexivity].
  - rewrite (parsedRows_lines _ _ _ E), flat_map_nil_iff. simpl hd; simpl tl.
    split.
    + intros H. right. intros line Hin Hlen.
      specialize (H line Hin). unfold lineRows in H.
      rewrite Hlen, Nat.eqb_refl in H. discriminate.
    + intros [Hshort | Hnone] line Hin.
      * destruct rest; [destruct Hin | simpl in Hshort; lia].
      * unfold lineRows.
        destruct (Nat.eqb (length (split PIPE line))
                          (length (headerNames headerLine))) eqn:L;
          [|reflexivity].
        apply Nat.eqb_eq in L. exfalso. exact (Hnone line Hin L).
Qed.

(** A header line and one data line, and an empty result. *)
Lemma mismatched_line_gives_empty :
  csvLines shortLineCsv = [lit "a|b"; lit "c"]
  /\ (2 <= length (csvLines shortLineCsv))%nat
  /\ parseNewsCSV shortLineCsv = [].
Proof.
  repeat split. vm_compute. lia.
Qed.

(* ----------------------------------------------------------------- *)
(** ** Latest-Snapshot selector *)

(** C5.  On a non-empty Record Set the selector returns exactly the
    order-preserving subsequence of the records whose [Date] equals the
    [Date] of the record at position 0; on the empty Record Set it returns
    the empty one.  The selector is the last stage of [parseNewsCSV]. *)
Theorem latestSnapshot_is_date_filter :
  latestSnapshot [] = []
  /\ (forall csvText, parseNewsCSV csvText = latestSnapshot (parsedRows csvText))
  /\ forall (first : Row) (rest : list Row),
      latestSnapshot (first :: rest)
      = filter (fun row => strict_eq (get row DateKey) (get first DateKey))
               (first :: rest)
      /\ Spec.Subseq (latestSnapshot (first :: rest)) (first :: rest)
      /\ (forall row, In row (latestSnapshot (first :: rest))
                      <-> In row (first :: rest) /\ Spec.sameDate first row).
Proof.
  split; [reflexivity|]. split; [exact parseNewsCSV_stages|].
  intros first rest.
  assert (E : latestSnapshot (first :: rest)
              = filter (fun row => strict_eq (get row DateKey) (get first DateKey))
                       (first :: rest)) by reflexivity.
  split; [exact E|]. rewrite E. split.
  - apply filter_Subseq.
  - intros row. rewrite filter_In, strict_eq_spec. reflexivity.
Qed.

(** C9.  A non-empty Record Set has a non-empty selection that starts with
    the record at position 0; the selection is non-empty if and only if the
    Record Set is. *)
Theorem latestSnapshot_keeps_first :
  (forall (first : Row) (rest : list Row),
      exists others, latestSnapshot (first :: rest) = first :: others)
  /\ (forall data, latestSnapshot data <> [] <-> data <> [])
  /\ (forall csvText, parseNewsCSV csvText <> [] <-> parsedRows csvText <> []).
Proof.
  split; [|split].
  - intros first rest. rewrite latestSnapshot_cons. eauto.
  - intros data. now rewrite latestSnapshot_nil_iff.
  - intros csvText. now rewrite parseNewsCSV_stages, latestSnapshot_nil_iff.
Qed.

(** C6 (as amended).  For a Record Set of size at least 1 the selection is
    the prefix-run of records sharing the first record's [Date] followed by
    the later records that carry that [Date] again; it is exactly the
    prefix-run, in order, when no record after the prefix-run carries the
    first record's [Date]. *)
Theorem latestSnapshot_prefix_run (first : Row) (rest : list Row) :
  (forall row,
      In row (skipn (length (Spec.prefixRun (first :: rest))) (first :: rest)) ->
      ~ Spec.sameDate first row) ->
  latestSnapshot (first :: rest) = Spec.prefixRun (first :: rest).
Proof.
  intros Hlater.
  change (latestSnapshot (first :: rest))
    with (filter (fun row => strict_eq (get row DateKey) (get first DateKey))
                 (first :: rest)).
  rewrite filter_takeRun.
  change (Spec.takeRun (get first DateKey) (first :: rest))
    with (Spec.prefixRun (first :: rest)).
  rewrite filter_none; [apply app_nil_r|].
  intros row Hin. specialize (Hlater row Hin).
  destruct (strict_eq (get row DateKey) (get first DateKey)) eqn:E;
    [|reflexivity].
  apply strict_eq_spec in E. contradiction.
Qed.

Lemma latestSnapshot_prefix_run_D2_D2_D1 :
  (forall row,
      In row (skipn (length (Spec.prefixRun runThenOlder)) runThenOlder) ->
      ~ Spec.sameDate (datedRow "D2" "A") row)
  /\ Spec.prefixRun runThenOlder = [datedRow "D2" "A"; datedRow "D2" "B"]
  /\ latestSnapshot runThenOlder = Spec.prefixRun runThenOlder.
Proof.
  assert (H : forall row,
             In row (skipn (length (Spec.prefixRun runThenOlder)) runThenOlder) ->
             ~ Spec.sameDate (datedRow "D2" "A") row).
  { intros row Hin. vm_compute in Hin. destruct Hin as [<-|[]].
    unfold Spec.sameDate. vm_compute. discriminate. }
  split; [exact H|]. split; [reflexivity|].
  exact (latestSnapshot_prefix_run (datedRow "D2" "A")
           [datedRow "D2" "B"; datedRow "D1" "C"] H).
Defined.

(** Dates [D2, D1, D2]: the prefix-run is the first record alone, the
    selection holds the first and the third. *)
Lemma later_same_date_is_selected :
  Spec.prefixRun dateComesBack = [datedRow "D2" "A"]
  /\ latestSnapshot dateComesBack = [datedRow "D2" "A"; datedRow "D2" "C"]
  /\ latestSnapshot dateComesBack <> Spec.prefixRun dateComesBack.
Proof.
  repeat split. vm_compute. discriminate.
Qed.

(* ----------------------------------------------------------------- *)
(** ** Renderer *)

Lemma newsGroupStep_linkLine (item : Row) (fullMd : jsstring) (hasNews : bool)
      (i : N) :
  newsGroupStep item (fullMd, hasNews) i
  = match Spec.linkLine item i with
    | Some line => (fullMd ++ line, true)
    | None => (fullMd, hasNews)
    end.
Proof.
  unfold newsGroupStep, Spec.linkLine.
  rewrite !present_nonBlankb.
  destruct (Spec.nonBlankb (get item (groupKey i "_title"))
            && Spec.nonBlankb (get item (groupKey i "_link"))); [|reflexivity].
  destruct (Spec.nonBlankb (get item (groupKey i "_date")));
    rewrite <- ?app_assoc; reflexivity.
Qed.

Lemma news_loop (item : Row) (indices : list N) :
  forall fullMd hasNews,
    fold_left (newsGroupStep item) indices (fullMd, hasNews)
    = (fullMd ++ concat (flat_map (Spec.groupLines item) indices),
       match flat_map (Spec.groupLines item) indices with
       | [] => hasNews
       | _ => true
       end).
Proof.
  induction indices as [|i rest IH]; intros fullMd hasNews;
    cbn [fold_left flat_map].
  - simpl. now rewrite app_nil_r.
  - rewrite newsGroupStep_linkLine.
    change (Spec.groupLines item i)
      with (match Spec.linkLine item i with
            | Some line => [line]
            | None => []
            end).
    destruct (Spec.linkLine item i) as [line|].
    + rewrite IH. cbn [app concat]. f_equal.
      * now rewrite <- app_assoc.
      * destruct (flat_map (Spec.groupLines item) rest); reflexivity.
    + apply IH.
Qed.

Lemma appendNews_lines (item : Row) (fullMd : jsstring) :
  appendNews item fullMd = fullMd ++ concat (Spec.newsLines item) ++ nl.
Proof.
  unfold appendNews. rewrite news_loop.
  unfold Spec.newsLines, Spec.linkLines.
  destruct (flat_map _ groupIndices) as [|l ls]; cbv iota; simpl negb; cbv iota.
  - simpl concat. rewrite !app_nil_r. rewrite <- app_assoc. reflexivity.
  - rewrite <- app_assoc. reflexivity.
Qed.

Lemma label_cases (item : Row) :
  let ticker := get item (lit "ticker") in
  let thesis := get item (lit "thesis") in
  (Spec.nonBlank thesis ->
   Spec.label item = lit "((" ++ tpl thesis ++ lit " '" ++ tpl ticker ++ lit "'))")
  /\ (~ Spec.nonBlank thesis -> Spec.label item = tpl ticker).
Proof.
  cbv zeta. unfold Spec.label. rewrite <- nonBlankb_spec.
  destruct (Spec.nonBlankb (get item (lit "thesis"))); split;
    intros H; try reflexivity; congruence.
Qed.

Lemma appendSymbolInfo_app (info : option SymbolInfo) (fullMd : jsstring) :
  Widget.appendSymbolInfo info fullMd = fullMd ++ symbolInfoText info.
Proof.
  unfold symbolInfoText, Widget.appendSymbolInfo.
  destruct info as [si|]; [|now rewrite app_nil_r].
  destruct (truthy (earnings_date si)); rewrite <- ?app_assoc; reflexivity.
Qed.

Lemma optimized_renderItem (fullMd : jsstring) (item : Row) (w : World) :
  Optimized.renderItem fullMd item w
  = (Return (fullMd ++ Spec.section item []), itemLog item).
Proof.
  unfold Optimized.renderItem, itemLog, Spec.section, Spec.label.
  rewrite <- present_nonBlankb.
  cbv [bind log emit ret].
  destruct (present (get item (lit "thesis"))); cbv [bind log emit ret];
    rewrite appendNews_lines, <- ?app_assoc; reflexivity.
Qed.

Lemma widget_renderItem (fullMd : jsstring) (item : NewsItem) (w : World) :
  Widget.renderItem fullMd item w
  = (Return (fullMd ++ Spec.section (item_fields item)
                                    (symbolInfoText (symbol_info item))),
     itemLog (item_fields item)).
Proof.
  unfold Widget.renderItem, itemLog, Spec.section, Spec.label.
  rewrite <- present_nonBlankb.
  cbv [bind log emit ret].
  destruct (present (get (item_fields item) (lit "thesis")));
    cbv [bind log emit ret];
    rewrite appendNews_lines, appendSymbolInfo_app, <- ?app_assoc;
    reflexivity.
Qed.

Lemma optimized_loop (newsData : list Row) :
  forall fullMd w,
    forOf newsData Optimized.renderItem fullMd w
    = (Return (fullMd ++ concat (map (fun item => Spec.section item []) newsData)),
       flat_map itemLog newsData).
Proof.
  induction newsData as [|item rest IH]; intros fullMd w;
    cbn [forOf map flat_map concat].
  - unfold ret. now rewrite !app_nil_r.
  - unfold bind. rewrite optimized_renderItem, IH.
    rewrite <- !app_assoc. reflexivity.
Qed.

Lemma widget_loop (newsItems : list NewsItem) :
  forall fullMd w,
    forOf newsItems Widget.renderItem fullMd w
    = (Return (fullMd
               ++ concat (map (fun item =>
                                 Spec.section (item_fields item)
                                              (symbolInfoText (symbol_info item)))
                              newsItems)),
       flat_map (fun item => itemLog (item_fields item)) newsItems).
Proof.
  induction newsItems as [|item rest IH]; intros fullMd w;
    cbn [forOf map flat_map concat].
  - unfold ret. now rewrite !app_nil_r.
  - unfold bind. rewrite widget_renderItem, IH.
    rewrite <- !app_assoc. reflexivity.
Qed.

(** C7.  In both variants the section of a record opens with the heading
    [## label]: when the record's thesis is present and non-blank after
    trimming, the label is the cross-reference token [((thesis 'ticker'))]
    holding the thesis identifier and the ticker as display text; otherwise
    the label is the plain ticker (an absent ticker is written as JavaScript
    interpolates it).  The remote-service variant puts its symbol-info text
    between the label and the end of the heading line. *)
Theorem section_heading (item : NewsItem) (fullMd : jsstring) (w : World) :
  let fields := item_fields item in
  let ticker := get fields (lit "ticker") in
  let thesis := get fields (lit "thesis") in
  exists label,
    fst (Optimized.renderItem fullMd fields w)
    = Return (fullMd ++ lit "## " ++ label ++ nl ++ nl
                     ++ concat (Spec.newsLines fields) ++ nl)
    /\ fst (Widget.renderItem fullMd item w)
       = Return (fullMd ++ lit "## " ++ label
                        ++ symbolInfoText (symbol_info item) ++ nl ++ nl
                        ++ concat (Spec.newsLines fields) ++ nl)
    /\ (Spec.nonBlank thesis ->
        label = lit "((" ++ tpl thesis ++ lit " '" ++ tpl ticker ++ lit "'))")
    /\ (~ Spec.nonBlank thesis -> label = tpl ticker).
Proof.
  cbv zeta. exists (Spec.label (item_fields item)).
  rewrite optimized_renderItem, widget_renderItem.
  unfold Spec.section. cbn [fst]. rewrite app_nil_l.
  split; [reflexivity|]. split; [reflexivity|].
  apply label_cases.
Qed.

Example section_heading_AAPL :
  fst (Optimized.renderItem [] (item_fields (nth 0 sampleItems (mkNewsItem [] None)))
                            failedUpdateWorld)
  = Return (lit "## ((thesis123 'AAPL'))" ++ nl ++ nl
            ++ lit "- [Apple event](http://x) · 2024-01-04" ++ nl ++ nl).
Proof. reflexivity. Qed.

Example section_heading_MSFT :
  fst (Widget.renderItem [] (nth 1 sampleItems (mkNewsItem [] None))
                         failedUpdateWorld)
  = Return (lit "## MSFT" ++ nl ++ nl ++ lit "*(暂无新闻)*" ++ nl ++ nl).
Proof. reflexivity. Qed.

Lemma trimmedText_nonBlankb (v : option jsstring) :
  Spec.trimmedText v = if Spec.nonBlankb v then Some (trimmed v) else None.
Proof.
  destruct v as [s|]; [|reflexivity]. simpl.
  destruct (trim s); reflexivity.
Qed.

Lemma trimmedText_Some (s : jsstring) :
  trim s <> [] -> Spec.trimmedText (Some s) = Some (trim s).
Proof.
  intros H. simpl. destruct (trim s); [contradiction | reflexivity].
Qed.

Lemma trimmedText_None (v : option jsstring) :
  ~ Spec.nonBlank v -> Spec.trimmedText v = None.
Proof.
  intros H. rewrite trimmedText_nonBlankb.
  destruct (Spec.nonBlankb v) eqn:E; [|reflexivity].
  apply nonBlankb_spec in E. contradiction.
Qed.

Lemma trimmedText_nonBlank (v : option jsstring) :
  Spec.trimmedText v <> None <-> Spec.nonBlank v.
Proof.
  rewrite trimmedText_nonBlankb, <- nonBlankb_spec.
  destruct (Spec.nonBlankb v); split; congruence.
Qed.

(** The line the loop writes for group [i] is the line read off the three
    fields named [titleKey], [dateKey] and [linkKey], once the keys the
    program builds are those names. *)
Lemma groupLines_listLine (item : Row) (i : N)
      (titleKey dateKey linkKey : jsstring) :
  groupKey i "_title" = titleKey ->
  groupKey i "_date" = dateKey ->
  groupKey i "_link" = linkKey ->
  Spec.groupLines item i
  = Spec.listLine (get item titleKey) (get item dateKey) (get item linkKey).
Proof.
  intros <- <- <-. unfold Spec.groupLines, Spec.linkLine, Spec.listLine.
  rewrite !trimmedText_nonBlankb.
  destruct (Spec.nonBlankb (get item (groupKey i "_title")));
    destruct (Spec.nonBlankb (get item (groupKey i "_link")));
    cbn [andb]; try reflexivity.
  destruct (Spec.nonBlankb (get item (groupKey i "_date"))); reflexivity.
Qed.

Lemma linkLines_listLines (item : Row) :
  Spec.linkLines item = Spec.listLines item.
Proof.
  unfold Spec.linkLines, Spec.listLines, groupIndices, Spec.newsGroupFields.
  cbn [flat_map].
  rewrite (groupLines_listLine item 1 (lit "news_1_title") (lit "news_1_date")
                               (lit "news_1_link")) by reflexivity.
  rewrite (groupLines_listLine item 2 (lit "news_2_title") (lit "news_2_date")
                               (lit "news_2_link")) by reflexivity.
  rewrite (groupLines_listLine item 3 (lit "news_3_title") (lit "news_3_date")
                               (lit "news_3_link")) by reflexivity.
  rewrite (groupLines_listLine item 4 (lit "news_4_title") (lit "news_4_date")
                               (lit "news_4_link")) by reflexivity.
  rewrite (groupLines_listLine item 5 (lit "news_5_title") (lit "news_5_date")
                               (lit "news_5_link")) by reflexivity.
  reflexivity.
Qed.

(** C8.  For every record the lines under the heading are, for the news
    groups 1 to 5 in order (fields [news_1_title], [news_1_date],
    [news_1_link] up to [news_5_...]), one list line per group whose title
    and link are both non-blank after trimming: [- [title](link)] with the
    trimmed title as link text and the trimmed link as target, followed by
    a middle dot and the trimmed group date when that date is non-blank.  A
    group with a blank title or a blank link gives no line, and when no
    group gave a line, the one placeholder line stands in their place. *)
Theorem news_lines_or_fallback (item : Row) (fullMd : jsstring) :
  appendNews item fullMd
  = fullMd ++ concat (match Spec.listLines item with
                      | [] => [lit "*(暂无新闻)*" ++ [10]]
                      | lines => lines
                      end) ++ [10]
  /\ Spec.listLines item
     = Spec.listLine (get item (lit "news_1_title"))
                     (get item (lit "news_1_date"))
                     (get item (lit "news_1_link"))
       ++ Spec.listLine (get item (lit "news_2_title"))
                        (get item (lit "news_2_date"))
                        (get item (lit "news_2_link"))
       ++ Spec.listLine (get item (lit "news_3_title"))
                        (get item (lit "news_3_date"))
                        (get item (lit "news_3_link"))
       ++ Spec.listLine (get item (lit "news_4_title"))
                        (get item (lit "news_4_date"))
                        (get item (lit "news_4_link"))
       ++ Spec.listLine (get item (lit "news_5_title"))
                        (get item (lit "news_5_date"))
                        (get item (lit "news_5_link"))
  /\ (forall text day target,
         trim text <> [] -> trim target <> [] -> trim day <> [] ->
         Spec.listLine (Some text) (Some day) (Some target)
         = [lit "- [" ++ trim text ++ lit "](" ++ trim target ++ lit ")"
                ++ lit " · " ++ trim day ++ [10]])
  /\ (forall text date target,
         trim text <> [] -> trim target <> [] -> ~ Spec.nonBlank date ->
         Spec.listLine (Some text) date (Some target)
         = [lit "- [" ++ trim text ++ lit "](" ++ trim target ++ lit ")"
                ++ [10]])
  /\ (forall title date link,
         ~ (Spec.nonBlank title /\ Spec.nonBlank link) ->
         Spec.listLine title date link = []).
Proof.
  split; [|split; [|split; [|split]]].
  - rewrite appendNews_lines. unfold Spec.newsLines.
    rewrite linkLines_listLines. reflexivity.
  - unfold Spec.listLines, Spec.newsGroupFields. cbn [flat_map].
    now rewrite app_nil_r.
  - intros text day target Ht Hl Hd. unfold Spec.listLine.
    rewrite !trimmedText_Some by assumption. reflexivity.
  - intros text date target Ht Hl Hd. unfold Spec.listLine.
    rewrite !trimmedText_Some by assumption.
    rewrite (trimmedText_None date Hd). reflexivity.
  - intros title date link H. unfold Spec.listLine.
    destruct (Spec.trimmedText title) as [t|] eqn:Et; [|reflexivity].
    destruct (Spec.trimmedText link) as [l|] eqn:El; [|reflexivity].
    exfalso. apply H. split; apply trimmedText_nonBlank; congruence.
Qed.

(** Titles and links are trimmed, the date is dropped when blank, a group
    with a blank link is skipped. *)
Example padded_groups :
  appendNews [(lit "news_1_title", lit "  Apple event ");
              (lit "news_1_date", lit "   ");
              (lit "news_1_link", lit " http://x  ");
              (lit "news_2_title", lit "Title only");
              (lit "news_2_link", lit "  ");
              (lit "news_3_title", lit "Third");
              (lit "news_3_date", lit " 2024-01-04 ");
              (lit "news_3_link", lit "http://y")] []
  = lit "- [Apple event](http://x)" ++ nl
    ++ lit "- [Third](http://y) · 2024-01-04" ++ nl ++ nl.
Proof. reflexivity. Qed.

Example all_groups_blank :
  appendNews [(lit "ticker", lit "MSFT"); (lit "news_1_title", lit "  ");
              (lit "news_1_link", lit "http://x");
              (lit "news_2_title", lit "Title only")] []
  = lit "*(暂无新闻)*" ++ nl ++ nl.
Proof. reflexivity. Qed.

(** C10.  For every list of news items none of which carries [symbol_info],
    and every display date, the remote-service variant assembles the very
    document the direct-file variant assembles from the same records. *)
Theorem widget_markdown_eq_optimized
        (date : option jsstring) (newsItems : list NewsItem) (w : World) :
  Forall (fun item => symbol_info item = None) newsItems ->
  exists fullMd,
    markdownOf (widgetMarkdown date newsItems) w = Some fullMd
    /\ markdownOf (optimizedMarkdown date (map item_fields newsItems)) w
       = Some fullMd.
Proof.
  intros Hnone.
  unfold markdownOf, widgetMarkdown, optimizedMarkdown, Widget.buildMarkdown.
  rewrite widget_loop, optimized_loop.
  eexists. split; [reflexivity|].
  rewrite map_map.
  assert (E : map (fun item => Spec.section (item_fields item) []) newsItems
              = map (fun item => Spec.section (item_fields item)
                                              (symbolInfoText (symbol_info item)))
                    newsItems).
  { induction Hnone as [|item rest Hitem _ IH]; cbn [map]; [reflexivity|].
    rewrite Hitem, IH. reflexivity. }
  rewrite E. reflexivity.
Qed.

Lemma widget_markdown_eq_optimized_sample :
  Forall (fun item => symbol_info item = None) sampleItems
  /\ exists fullMd,
      markdownOf (widgetMarkdown (Some (lit "2024-01-05")) sampleItems)
                 failedUpdateWorld = Some fullMd
      /\ markdownOf (optimizedMarkdown (Some (lit "2024-01-05"))
                                       (map item_fields sampleItems))
                    failedUpdateWorld = Some fullMd.
Proof.
  assert (H : Forall (fun item => symbol_info item = None) sampleItems)
    by (repeat constructor).
  split; [exact H|].
  exact (widget_markdown_eq_optimized (Some (lit "2024-01-05")) sampleItems
                                      failedUpdateWorld H).
Defined.

(** The two documents differ by the symbol-info text alone. *)
Lemma widget_markdown_sections
      (date : option jsstring) (newsItems : list NewsItem) (w : World) :
  markdownOf (widgetMarkdown date newsItems) w
  = Some (documentHeading date
          ++ concat (map (fun item =>
                            Spec.section (item_fields item)
                                         (symbolInfoText (symbol_info item)))
                         newsItems))
  /\ markdownOf (optimizedMarkdown date (map item_fields newsItems)) w
     = Some (documentHeading date
             ++ concat (map (fun item => Spec.section (item_fields item) [])
                            newsItems)).
Proof.
  unfold markdownOf, widgetMarkdown, optimizedMarkdown, Widget.buildMarkdown.
  rewrite widget_loop, optimized_loop, map_map. split; reflexivity.
Qed.

(** The end-to-end scenario: the [2024-01-05] row alone is selected and
    rendered. *)
Example end_to_end_scenario :
  markdownOf (optimizedMarkdown (Optimized.firstDate (parseNewsCSV sampleCsv))
                                (parseNewsCSV sampleCsv)) failedUpdateWorld
  = Some (nl ++ lit "---" ++ nl
          ++ lit "# 📈 Portfolio News Update (2024-01-05)" ++ nl ++ nl
          ++ lit "## ((thesis123 'AAPL'))" ++ nl ++ nl
          ++ lit "- [Apple event](http://x) · 2024-01-04" ++ nl ++ nl).
Proof. reflexivity. Qed.

(* ----------------------------------------------------------------- *)
(** ** Orchestrator *)

Lemma bind_emit {A : Type} (e : Event) (k : Action A) (w : World) :
  (emit e ;; k) w = (fst (k w), e :: snd (k w)).
Proof. unfold bind, emit. destruct (k w); reflexivity. Qed.

Lemma bind_returns {A : Type} (m : Action unit) (k : Action A) (w : World) :
  fst (m w) = Return tt ->
  (m ;; k) w = (fst (k w), snd (m w) ++ snd (k w)).
Proof.
  unfold bind. destruct (m w) as [o tr]; simpl. intros ->.
  destruct (k w); reflexivity.
Qed.

Lemma bind_readTargetId {A : Type} (f : jsstring -> Action A) (w : World) :
  (targetId <- readTargetId ;; f targetId) w = f (trim (targetDocIdValue w)) w.
Proof.
  unfold readTargetId, bind, ask, ret.
  destruct (f (trim (targetDocIdValue w)) w); reflexivity.
Qed.

Lemma truthy_nonempty (s : jsstring) : truthy (Some s) = true <-> s <> [].
Proof. destruct s; simpl; split; congruence. Qed.

(** An action guarded by [try]/[catch]/[finally] completes normally when its
    handler and its finalizer do, whatever its body does. *)
Lemma tryCatchFinally_returns (body : Action unit)
      (handler : jsstring -> Action unit) (finalizer : Action unit) (w : World) :
  (forall e, fst (handler e w) = Return tt) ->
  fst (finalizer w) = Return tt ->
  fst (tryCatchFinally body handler finalizer w) = Return tt.
Proof.
  intros Hh Hf. unfold tryCatchFinally.
  destruct (body w) as [[[]|e] tr1].
  - destruct (finalizer w) as [[u|e] tr3]; simpl in *; congruence.
  - specialize (Hh e). destruct (handler e w) as [o2 tr2]. simpl in Hh. subst o2.
    destruct (finalizer w) as [[u|e'] tr3]; simpl in *; congruence.
Qed.

Lemma reportFailure_returns (e : jsstring) (w : World) :
  fst (reportFailure e w) = Return tt.
Proof. reflexivity. Qed.

(** [runPortfolioUpdate] catches every failure of the update step itself:
    its caller never sees an exception. *)
Lemma runPortfolioUpdate_returns (w : World) :
  fst (Optimized.runPortfolioUpdate w) = Return tt.
Proof.
  unfold Optimized.runPortfolioUpdate, setDisabled, log.
  rewrite !bind_emit. cbn [fst].
  apply tryCatchFinally_returns; reflexivity.
Qed.

Lemma importNewsToSiyuan_returns (w : World) :
  fst (Optimized.importNewsToSiyuan w) = Return tt.
Proof.
  unfold Optimized.importNewsToSiyuan. rewrite bind_readTargetId.
  destruct (truthy (Some (trim (targetDocIdValue w)))); cbn [negb];
    [|reflexivity].
  unfold setDisabled, log. rewrite !bind_emit. cbn [fst].
  apply tryCatchFinally_returns; reflexivity.
Qed.

Lemma importChartToSiyuan_returns (w : World) :
  fst (Optimized.importChartToSiyuan w) = Return tt.
Proof.
  unfold Optimized.importChartToSiyuan. rewrite bind_readTargetId.
  destruct (truthy (Some (trim (targetDocIdValue w)))); cbn [negb];
    [|reflexivity].
  unfold setDisabled, log. rewrite !bind_emit. cbn [fst].
  apply tryCatchFinally_returns; reflexivity.
Qed.

(** With a target identifier given, the full pipeline runs its three steps
    one after the other and reports success, whatever each step met. *)
Lemma importFullPortfolio_runs_every_step (w : World) :
  trim (targetDocIdValue w) <> [] ->
  Optimized.importFullPortfolio w
  = (Return tt,
     [ESetDisabled WorkBtn true; ESetDisabled ImportNewsBtn true;
      ESetDisabled ImportChartBtn true; EClearLog;
      ELog (lit "🚀 开始执行完整导入流程...") Info;
      ELog (nl ++ lit "=== 步骤 1/3: 更新投资组合数据 ===") Info]
     ++ trace Optimized.runPortfolioUpdate w
     ++ [ETimeout 1000; ELog (nl ++ lit "=== 步骤 2/3: 导入新闻 ===") Info]
     ++ trace Optimized.importNewsToSiyuan w
     ++ [ELog (nl ++ lit "=== 步骤 3/3: 导入交互式图表 ===") Info]
     ++ trace Optimized.importChartToSiyuan w
     ++ [ELog (nl ++ lit "🎊 完整导入流程执行成功！") Success;
         ESetDisabled WorkBtn false; ESetDisabled ImportNewsBtn false;
         ESetDisabled ImportChartBtn false]).
Proof.
  intros Htarget. apply truthy_nonempty in Htarget.
  unfold Optimized.importFullPortfolio. rewrite bind_readTargetId, Htarget.
  cbn [negb]. unfold setDisabled, log. rewrite !bind_emit.
  unfold tryCatchFinally.
  rewrite bind_emit.
  rewrite (bind_returns _ _ _ (runPortfolioUpdate_returns w)).
  rewrite !bind_emit.
  rewrite (bind_returns _ _ _ (importNewsToSiyuan_returns w)).
  rewrite bind_emit.
  rewrite (bind_returns _ _ _ (importChartToSiyuan_returns w)).
  unfold emit, trace. cbn [fst snd app].
  repeat first [rewrite <- app_assoc | progress cbn [app]]. reflexivity.
Qed.

(** The news step, once past the validation, asks for the news file. *)
Lemma importNewsToSiyuan_asks_for_file (w : World) :
  trim (targetDocIdValue w) <> [] ->
  exists rest,
    trace Optimized.importNewsToSiyuan w
    = [ESetDisabled ImportNewsBtn true;
       ELog (lit "📰 开始导入最新新闻到思源笔记...") Info;
       ELog (lit "📂 正在读取本地新闻数据...") Info;
       EFetch Optimized.newsFileRequest] ++ rest.
Proof.
  intros Htarget. apply truthy_nonempty in Htarget.
  unfold trace, Optimized.importNewsToSiyuan.
  rewrite bind_readTargetId, Htarget. cbn [negb].
  unfold setDisabled, log. rewrite !bind_emit. cbn [snd].
  unfold tryCatchFinally. rewrite bind_emit.
  match goal with
  | |- context [snd (bind (fetch ?r ?who) ?k w)] =>
    assert (Hf : exists t, snd (bind (fetch r who) k w) = EFetch r :: t)
  end.
  { unfold bind at 1, fetch. destruct (newsFile w) as [e|ok st body].
    - eexists; reflexivity.
    - match goal with |- context [let '(_, _) := ?x in _] => destruct x end.
      eexists; reflexivity. }
  destruct Hf as [t Ht].
  match goal with
  | |- context [let '(_, _) := ?x in _] => destruct x as [o2 tr2]
  end.
  cbn [fst snd] in *. rewrite Ht.
  match goal with
  | |- context [let '(_, _) := ?x in _] => destruct x as [o3 tr3]
  end.
  destruct o3; cbn [snd app]; eexists; reflexivity.
Qed.

(** Whatever the update step met, the pipeline goes on to ask for the news
    file. *)
Lemma importFullPortfolio_reaches_news (w : World) :
  trim (targetDocIdValue w) <> [] ->
  In (EFetch Optimized.newsFileRequest) (trace Optimized.importFullPortfolio w)
  /\ In (ELog (nl ++ lit "🎊 完整导入流程执行成功！") Success)
        (trace Optimized.importFullPortfolio w).
Proof.
  intros Htarget. unfold trace at 1 2.
  rewrite (importFullPortfolio_runs_every_step w Htarget). cbn [snd].
  destruct (importNewsToSiyuan_asks_for_file w Htarget) as [rest ->].
  split.
  - do 3 (apply in_or_app; right). do 2 (apply in_or_app; left).
    cbn [In]. auto 6.
  - do 6 (apply in_or_app; right). cbn [In]. auto.
Qed.

(** C1 (the code at a failing update step).  The update collaborator
    answers with the status flag [error]; [importFullPortfolio] logs the
    failure of step 1 and then reads the news file, appends the news, checks
    and appends the chart, and reports that the whole pipeline succeeded. *)
Theorem failed_update_does_not_halt_pipeline :
  updatePortfolio failedUpdateWorld = updateReportsError
  /\ In (ELog (lit "❌ 失败: Python 脚本错误: yfinance unavailable") Error)
        (trace Optimized.runPortfolioUpdate failedUpdateWorld)
  /\ (exists fullMd,
         remoteCalls (trace Optimized.importFullPortfolio failedUpdateWorld)
         = [EFetch updateRequest;
            EFetch Optimized.newsFileRequest;
            EFetch (appendRequest fullMd sampleTarget);
            EFetch Optimized.chartFileRequest;
            EFetch (appendRequest (Optimized.iframeHtml Optimized.chartPath)
                                  sampleTarget)])
  /\ In (ELog (nl ++ lit "=== 步骤 2/3: 导入新闻 ===") Info)
        (trace Optimized.importFullPortfolio failedUpdateWorld)
  /\ In (ELog (nl ++ lit "🎊 完整导入流程执行成功！") Success)
        (trace Optimized.importFullPortfolio failedUpdateWorld)
  /\ ~ In (ELog (lit "❌ 流程中断: Python 脚本错误: yfinance unavailable") Error)
          (trace Optimized.importFullPortfolio failedUpdateWorld).
Proof.
  split; [reflexivity|].
  split; [vm_compute; auto 10|].
  split; [eexists; vm_compute; reflexivity|].
  split; [vm_compute; auto 30|].
  split; [vm_compute; auto 60|].
  vm_compute. intuition discriminate.
Qed.

(** The same with a transport failure: HTTP 500 from the update
    collaborator. *)
Example http500_update_does_not_halt_pipeline :
  map (fun e => match e with EFetch r => req_url r | _ => [] end)
      (remoteCalls (trace Optimized.importFullPortfolio http500World))
  = [BRIDGE_URL; Optimized.newsPath; lit "/api/block/appendBlock";
     Optimized.chartPath; lit "/api/block/appendBlock"].
Proof. vm_compute. reflexivity. Qed.

(** The update step reads no target identifier: whatever the input holds,
    it calls the update collaborator once and writes no validation line. *)
Lemma runPortfolioUpdate_calls_bridge (w : World) :
  remoteCalls (trace Optimized.runPortfolioUpdate w) = [EFetch updateRequest]
  /\ ~ In validationError (trace Optimized.runPortfolioUpdate w).
Proof.
  unfold trace, Optimized.runPortfolioUpdate, remoteCalls, validationError.
  cbv [bind emit log setDisabled tryCatchFinally fetch decoded throwIf
       reportFailure ret throw when Optimized.logSummary res_ok res_status
       res_body].
  destruct (updatePortfolio w) as [e|[] st [py|e]];
    cbn [negb fst snd app filter isFetch];
    try (split; [reflexivity | cbn [In]; intuition discriminate]).
  destruct (isSuccess (upd_status py)); cbn [negb fst snd app filter isFetch];
    try (split; [reflexivity | cbn [In]; intuition discriminate]).
  destruct (isSuccess (upd_chart_status py));
    [|destruct (strict_eq (upd_chart_status py) (Some (lit "warning")))];
    destruct (upd_summary py);
    cbn [negb fst snd app filter isFetch];
    (split; [reflexivity | cbn [In]; intuition discriminate]).
Qed.

(** C2 (as amended).  The import-news, import-chart and run-all actions
    begin by validating that the target-document identifier is non-blank
    after trimming; when it is blank the action writes exactly one
    validation error line and performs no remote call.  So does the news
    import of the remote-service variant. *)
Theorem blank_target_aborts_before_any_call (t : Optimized.Trigger) (w : World) :
  trim (targetDocIdValue w) = [] ->
  t <> Optimized.UpdateData ->
  Optimized.handler t w = (Return tt, [validationError])
  /\ Widget.importNewsToSiyuan w = (Return tt, [validationError])
  /\ logLines (trace (Optimized.handler t) w) = [validationError]
  /\ remoteCalls (trace (Optimized.handler t) w) = [].
Proof.
  intros Hblank Ht.
  assert (E : Optimized.handler t w = (Return tt, [validationError])).
  { destruct t; [contradiction| | |]; cbn [Optimized.handler];
      [unfold Optimized.importNewsToSiyuan
      |unfold Optimized.importChartToSiyuan
      |unfold Optimized.importFullPortfolio];
      rewrite bind_readTargetId, Hblank; reflexivity. }
  split; [exact E|]. split.
  - unfold Widget.importNewsToSiyuan.
    rewrite bind_readTargetId, Hblank. reflexivity.
  - unfold trace. rewrite E. split; reflexivity.
Qed.

Lemma blank_target_aborts_news_import :
  trim (targetDocIdValue blankTargetWorld) = []
  /\ Optimized.ImportNews <> Optimized.UpdateData
  /\ Optimized.handler Optimized.ImportNews blankTargetWorld
     = (Return tt, [validationError]).
Proof.
  assert (Hblank : trim (targetDocIdValue blankTargetWorld) = [])
    by reflexivity.
  assert (Ht : Optimized.ImportNews <> Optimized.UpdateData) by discriminate.
  split; [exact Hblank|]. split; [exact Ht|].
  exact (proj1 (blank_target_aborts_before_any_call
                  Optimized.ImportNews blankTargetWorld Hblank Ht)).
Defined.

(** With a blank target identifier the update-data action still calls the
    update collaborator, and writes no validation line. *)
Lemma update_ignores_blank_target :
  trim (targetDocIdValue blankTargetWorld) = []
  /\ remoteCalls (trace (Optimized.handler Optimized.UpdateData) blankTargetWorld)
     = [EFetch updateRequest]
  /\ ~ In validationError
          (trace (Optimized.handler Optimized.UpdateData) blankTargetWorld).
Proof.
  split; [reflexivity|]. split; [reflexivity|].
  vm_compute. intuition discriminate.
Qed.

(* ================================================================= *)
(** * Further properties of the code *)

(** ** Trimming *)

Lemma trimStart_length (s : jsstring) : (length (trimStart s) <= length s)%nat.
Proof.
  induction s as [|c s IH]; simpl; [lia|].
  destruct (isWhiteSpace c); simpl; lia.
Qed.

Lemma trimStart_fixed_head (c : char) (s : jsstring) :
  trimStart (c :: s) = c :: s -> isWhiteSpace c = false.
Proof.
  simpl. destruct (isWhiteSpace c); [|reflexivity].
  intros E. pose proof (trimStart_length s) as L. rewrite E in L.
  simpl in L. lia.
Qed.

Lemma trimStart_idem (s : jsstring) : trimStart (trimStart s) = trimStart s.
Proof.
  induction s as [|c s IH]; simpl; [reflexivity|].
  destruct (isWhiteSpace c) eqn:E; [exact IH|].
  simpl. now rewrite E.
Qed.

(** What [trimStart] removes is a prefix. *)
Lemma trimStart_suffix (s : jsstring) : exists p, s = p ++ trimStart s.
Proof.
  induction s as [|c s [p IH]]; simpl.
  - exists []. reflexivity.
  - destruct (isWhiteSpace c).
    + exists (c :: p). simpl. now rewrite <- IH.
    + exists []. reflexivity.
Qed.

Lemma trimEnd_keeps_start (s : jsstring) :
  trimStart s = s -> trimStart (trimEnd s) = trimEnd s.
Proof.
  intros Hs. unfold trimEnd.
  destruct (trimStart_suffix (rev s)) as [p Hp].
  assert (E : s = rev (trimStart (rev s)) ++ rev p).
  { rewrite <- rev_app_distr, <- Hp. now rewrite rev_involutive. }
  destruct (rev (trimStart (rev s))) as [|c t]; [reflexivity|].
  rewrite E in Hs. simpl in Hs.
  apply trimStart_fixed_head in Hs. simpl. now rewrite Hs.
Qed.

Lemma trim_idem (s : jsstring) : trim (trim s) = trim s.
Proof.
  unfold trim.
  rewrite (trimEnd_keeps_start (trimStart s) (trimStart_idem s)).
  unfold trimEnd. rewrite rev_involutive, trimStart_idem. reflexivity.
Qed.

(** ** Keys and values of parsed rows *)

Lemma keys_assign_In (k v : jsstring) (r : Row) (k' : jsstring) :
  In k' (keys (assign k v r)) <-> k' = k \/ In k' (keys r).
Proof.
  induction r as [|[k0 v0] t IH]; simpl.
  - intuition.
  - destruct (str_eqb k k0) eqn:E; simpl.
    + apply str_eqb_spec in E. subst k0. intuition.
    + rewrite IH. intuition.
Qed.

Lemma keys_assign_NoDup (k v : jsstring) (r : Row) :
  NoDup (keys r) -> NoDup (keys (assign k v r)).
Proof.
  induction r as [|[k0 v0] t IH]; simpl; intros ND.
  - constructor; [intros []|constructor].
  - inversion ND as [|? ? Hnotin ND']; subst.
    destruct (str_eqb k k0) eqn:E; simpl.
    + apply str_eqb_spec in E. subst k0. constructor; assumption.
    + constructor; [|now apply IH].
      intros Hin. apply keys_assign_In in Hin. destruct Hin as [->|Hin].
      * rewrite str_eqb_refl in E. discriminate.
      * contradiction.
Qed.

Lemma keys_assign_same (k v v' : jsstring) (r r' : Row) :
  keys r = keys r' -> keys (assign k v r) = keys (assign k v' r').
Proof.
  revert r'. induction r as [|[k0 v0] t IH]; intros [|[k1 v1] t'] E;
    simpl in E; try discriminate; [reflexivity|].
  inversion E; subst. simpl.
  destruct (str_eqb k k1); simpl; [now f_equal|].
  f_equal. now apply IH.
Qed.

Lemma get_assign (k v : jsstring) (r : Row) (k' : jsstring) :
  get (assign k v r) k' = if str_eqb k' k then Some v else get r k'.
Proof.
  induction r as [|[k0 v0] t IH]; simpl.
  - reflexivity.
  - destruct (str_eqb k k0) eqn:E; simpl.
    + apply str_eqb_spec in E. subst k0.
      destruct (str_eqb k' k); reflexivity.
    + rewrite IH. destruct (str_eqb k' k0) eqn:E0; [|reflexivity].
      apply str_eqb_spec in E0. subst k0.
      destruct (str_eqb k' k) eqn:E1; [|reflexivity].
      apply str_eqb_spec in E1. subst k'.
      rewrite str_eqb_refl in E. discriminate.
Qed.

Lemma get_None_iff (r : Row) (k : jsstring) :
  get r k = None <-> ~ In k (keys r).
Proof.
  induction r as [|[k0 v0] t IH]; simpl.
  - intuition.
  - destruct (str_eqb k k0) eqn:E.
    + apply str_eqb_spec in E. subst. split; [discriminate | intuition].
    + apply str_eqb_neq in E. rewrite IH. intuition congruence.
Qed.

Lemma In_assign (k v : jsstring) (r : Row) (kv : jsstring * jsstring) :
  In kv (assign k v r) -> kv = (k, v) \/ In kv r.
Proof.
  induction r as [|[k0 v0] t IH]; simpl.
  - intuition.
  - destruct (str_eqb k k0); simpl; intuition.
Qed.



Lemma keys_fillRow_In (headers : list jsstring) :
  forall index values row k,
    In k (keys (fillRow headers index values row))
    <-> In k (keys row) \/ (In k headers /\ k <> protoKey).
Proof.
  induction headers as [|h hs IH]; intros index values row k; simpl.
  - intuition.
  - rewrite IH. unfold set. fold protoKey.
    destruct (str_eqb h protoKey) eqn:E.
    + apply str_eqb_spec in E. subst h. intuition congruence.
    + apply str_eqb_neq in E. rewrite keys_assign_In. intuition congruence.
Qed.

Lemma keys_fillRow_NoDup (headers : list jsstring) :
  forall index values row,
    NoDup (keys row) -> NoDup (keys (fillRow headers index values row)).
Proof.
  induction headers as [|h hs IH]; intros index values row ND; simpl;
    [exact ND|].
  apply IH. unfold set. destruct (str_eqb h (lit "__proto__"));
    [exact ND | now apply keys_assign_NoDup].
Qed.

Lemma keys_fillRow_same (headers : list jsstring) :
  forall index index' values values' row row',
    keys row = keys row' ->
    keys (fillRow headers index values row)
    = keys (fillRow headers index' values' row').
Proof.
  induction headers as [|h hs IH]; intros index index' values values' row row' E;
    simpl; [exact E|].
  apply IH. unfold set. destruct (str_eqb h (lit "__proto__"));
    [exact E | now apply keys_assign_same].
Qed.

Lemma In_parsedRows (csvText : jsstring) (row : Row) :
  In row (parsedRows csvText) ->
  exists line,
    In line (tl (csvLines csvText))
    /\ length (split PIPE line)
       = length (headerNames (hd [] (csvLines csvText)))
    /\ row = fillRow (headerNames (hd [] (csvLines csvText))) 0
                     (split PIPE line) [].
Proof.
  destruct (csvLines csvText) as [|headerLine rest] eqn:E.
  - unfold parsedRows. rewrite E. intros [].
  - rewrite (parsedRows_lines _ _ _ E). simpl hd; simpl tl.
    intros Hin. apply in_flat_map in Hin. destruct Hin as [line [Hline Hrow]].
    exists line. unfold lineRows in Hrow.
    destruct (Nat.eqb (length (split PIPE line))
                      (length (headerNames headerLine))) eqn:L;
      [|destruct Hrow].
    apply Nat.eqb_eq in L. destruct Hrow as [<-|[]]. auto.
Qed.

Lemma parseNewsCSV_incl (csvText : jsstring) (row : Row) :
  In row (parseNewsCSV csvText) -> In row (parsedRows csvText).
Proof.
  rewrite parseNewsCSV_stages. destruct (parsedRows csvText) as [|first rest].
  - intros [].
  - change (latestSnapshot (first :: rest))
      with (filter (fun r => strict_eq (get r DateKey) (get first DateKey))
                   (first :: rest)).
    intros Hin. apply filter_In in Hin. tauto.
Qed.

(** X1.  All rows parsed from one input own the same properties, created
    in the same order: the trimmed header names other than [__proto__],
    each once.  Reading a row by one of those names gives a string.  The
    rows [parseNewsCSV] returns are among the parsed rows. *)
Theorem parsed_rows_share_keys (csvText : jsstring) :
  (forall row row',
      In row (parsedRows csvText) -> In row' (parsedRows csvText) ->
      keys row = keys row')
  /\ Forall (fun row =>
               NoDup (keys row)
               /\ (forall k,
                      In k (keys row)
                      <-> In k (headerNames (hd [] (csvLines csvText)))
                          /\ k <> protoKey)
               /\ (forall k,
                      In k (headerNames (hd [] (csvLines csvText))) ->
                      k <> protoKey ->
                      exists v, get row k = Some v))
            (parsedRows csvText)
  /\ (forall row, In row (parseNewsCSV csvText) -> In row (parsedRows csvText)).
Proof.
  split; [|split].
  - intros row row' Hin Hin'.
    apply In_parsedRows in Hin. destruct Hin as [line [_ [_ ->]]].
    apply In_parsedRows in Hin'. destruct Hin' as [line' [_ [_ ->]]].
    now apply keys_fillRow_same.
  - apply Forall_forall. intros row Hin.
    apply In_parsedRows in Hin. destruct Hin as [line [_ [_ ->]]].
    split; [|split].
    + apply keys_fillRow_NoDup. constructor.
    + intros k. rewrite keys_fillRow_In. simpl. tauto.
    + intros k Hk Hp.
      destruct (get (fillRow (headerNames (hd [] (csvLines csvText))) 0
                             (split PIPE line) []) k) as [v|] eqn:E;
        [eauto|].
      exfalso. apply get_None_iff in E. apply E.
      apply keys_fillRow_In. right. split; assumption.
  - apply parseNewsCSV_incl.
Qed.

Lemma fillRow_app (pre post : list jsstring) :
  forall index values row,
    fillRow (pre ++ post) index values row
    = fillRow post (index + length pre) values (fillRow pre index values row).
Proof.
  induction pre as [|h hs IH]; intros index values row; simpl.
  - now rewrite Nat.add_0_r.
  - rewrite IH. f_equal. lia.
Qed.

Lemma get_fillRow_other (headers : list jsstring) :
  forall index values row k,
    ~ In k headers ->
    get (fillRow headers index values row) k = get row k.
Proof.
  induction headers as [|h hs IH]; intros index values row k Hk; simpl;
    [reflexivity|].
  rewrite IH by (intros Hin; apply Hk; right; exact Hin).
  unfold set. destruct (str_eqb h (lit "__proto__")); [reflexivity|].
  rewrite get_assign.
  destruct (str_eqb k h) eqn:E; [|reflexivity].
  apply str_eqb_spec in E. subst. exfalso. apply Hk. left. reflexivity.
Qed.

(** X2.  When the header names a column more than once, a data line with
    the right number of values gives one row in which that name holds the
    trimmed value of the last column so named. *)
Theorem repeated_header_last_column_wins
        (headers : list jsstring) (line : jsstring)
        (pre : list jsstring) (h : jsstring) (post : list jsstring)
        (v : jsstring) :
  headers = pre ++ h :: post ->
  ~ In h post ->
  h <> protoKey ->
  length (split PIPE line) = length headers ->
  nth_error (split PIPE line) (length pre) = Some v ->
  exists row, lineRows headers line = [row] /\ get row h = Some (trim v).
Proof.
  intros -> Hpost Hproto L Hv.
  exists (fillRow (pre ++ h :: post) 0 (split PIPE line) []). split.
  - unfold lineRows. rewrite L, Nat.eqb_refl. reflexivity.
  - rewrite fillRow_app. cbn [fillRow Nat.add].
    rewrite get_fillRow_other by exact Hpost.
    unfold set. fold protoKey.
    destruct (str_eqb h protoKey) eqn:E;
      [apply str_eqb_spec in E; contradiction|].
    rewrite get_assign, str_eqb_refl. f_equal.
    now apply cell_trim.
Qed.

Lemma repeated_header_last_column_wins_a_a :
  [lit "a"; lit "a"] = [lit "a"] ++ lit "a" :: []
  /\ nth_error (split PIPE (lit "1|2")) (length [lit "a"]) = Some (lit "2")
  /\ exists row,
      lineRows [lit "a"; lit "a"] (lit "1|2") = [row]
      /\ get row (lit "a") = Some (trim (lit "2")).
Proof.
  split; [reflexivity|]. split; [reflexivity|].
  apply (repeated_header_last_column_wins
           [lit "a"; lit "a"] (lit "1|2") [lit "a"] (lit "a") [] (lit "2")).
  - reflexivity.
  - intros [].
  - vm_compute. discriminate.
  - reflexivity.
  - reflexivity.
Defined.

Lemma flat_map_length_filter {A B : Type} (p : A -> bool) (f : A -> B)
      (l : list A) :
  length (flat_map (fun x => if p x then [f x] else []) l)
  = length (filter p l).
Proof.
  induction l as [|x l IH]; simpl; [reflexivity|].
  destruct (p x); simpl; now rewrite IH.
Qed.

(** X3.  Whatever the header holds, the number of parsed rows is the number
    of data lines with as many pipe-delimited values as the header has
    names; [parseNewsCSV] returns at most that many rows, and never more
    rows than the trimmed input has data lines. *)
Theorem parsed_row_count (csvText : jsstring) :
  length (parsedRows csvText)
  = length (filter (fun line =>
                      Nat.eqb (length (split PIPE line))
                              (length (headerNames (hd [] (csvLines csvText)))))
                   (tl (csvLines csvText)))
  /\ (length (parseNewsCSV csvText) <= length (parsedRows csvText))%nat
  /\ (length (parsedRows csvText) <= length (csvLines csvText) - 1)%nat.
Proof.
  assert (E : length (parsedRows csvText)
              = length (filter (fun line =>
                                  Nat.eqb (length (split PIPE line))
                                          (length (headerNames
                                                     (hd [] (csvLines csvText)))))
                               (tl (csvLines csvText)))).
  { destruct (csvLines csvText) as [|headerLine rest] eqn:EL.
    - unfold parsedRows. rewrite EL. reflexivity.
    - rewrite (parsedRows_lines _ _ _ EL). simpl hd; simpl tl.
      unfold lineRows.
      apply (flat_map_length_filter
               (fun line => Nat.eqb (length (split PIPE line))
                                    (length (headerNames headerLine)))
               (fun line => fillRow (headerNames headerLine) 0
                                    (split PIPE line) [])). }
  split; [exact E|]. split.
  - rewrite parseNewsCSV_stages.
    destruct (parsedRows csvText) as [|first rest]; [simpl; lia|].
    change (latestSnapshot (first :: rest))
      with (filter (fun r => strict_eq (get r DateKey) (get first DateKey))
                   (first :: rest)).
    apply filter_length_le.
  - rewrite E.
    etransitivity; [apply filter_length_le|].
    destruct (csvLines csvText); simpl; lia.
Qed.

Lemma In_fillRow (headers : list jsstring) :
  forall index values row kv,
    In kv (fillRow headers index values row) ->
    In kv row
    \/ (In (fst kv) headers /\ exists j, snd kv = cell values j).
Proof.
  induction headers as [|h hs IH]; intros index values row kv Hin; simpl in *;
    [auto|].
  apply IH in Hin. destruct Hin as [Hin|[Hk Hv]]; [|tauto].
  unfold set in Hin. destruct (str_eqb h (lit "__proto__")); [auto|].
  apply In_assign in Hin. destruct Hin as [->|Hin]; [|auto].
  right. simpl. split; [auto | eauto].
Qed.

Lemma cell_trimmed (values : list jsstring) (j : nat) :
  trim (cell values j) = cell values j.
Proof.
  unfold cell. destruct (nth_error values j) as [v|]; [|reflexivity].
  destruct (truthy (Some v)); [apply trim_idem | reflexivity].
Qed.

(** X4.  Every key and every value of a parsed row is trimmed: trimming it
    again changes nothing, so no field name and no field value starts or
    ends with white space or a line terminator. *)
Theorem parsed_fields_are_trimmed
        (csvText : jsstring) (row : Row) (k v : jsstring) :
  In row (parsedRows csvText) ->
  In (k, v) row ->
  trim k = k /\ trim v = v.
Proof.
  intros Hrow Hkv.
  apply In_parsedRows in Hrow. destruct Hrow as [line [_ [_ ->]]].
  apply In_fillRow in Hkv. destruct Hkv as [[]|[Hk [j Hv]]].
  simpl in Hk, Hv. split.
  - unfold headerNames in Hk. apply in_map_iff in Hk.
    destruct Hk as [raw [<- _]]. apply trim_idem.
  - rewrite Hv. apply cell_trimmed.
Qed.

(** X5.  Selecting the latest snapshot twice is selecting it once. *)
Theorem latestSnapshot_idempotent (data : list Row) :
  latestSnapshot (latestSnapshot data) = latestSnapshot data.
Proof.
  destruct data as [|first rest]; [reflexivity|].
  rewrite latestSnapshot_cons, latestSnapshot_cons. f_equal.
  induction rest as [|row rest IH]; simpl; [reflexivity|].
  destruct (strict_eq (get row DateKey) (get first DateKey)) eqn:E; simpl;
    [rewrite E; now f_equal | exact IH].
Qed.

Lemma parsed_fields_are_trimmed_padded :
  In [(lit "Date", lit "2024-01-05"); (lit "ticker", lit "AAPL")]
     (parsedRows paddedCsv)
  /\ trim (lit "ticker") = lit "ticker" /\ trim (lit "AAPL") = lit "AAPL".
Proof.
  assert (Hrow : In [(lit "Date", lit "2024-01-05"); (lit "ticker", lit "AAPL")]
                    (parsedRows paddedCsv)) by (left; reflexivity).
  split; [exact Hrow|].
  apply (parsed_fields_are_trimmed paddedCsv _ (lit "ticker") (lit "AAPL") Hrow).
  right. left. reflexivity.
Defined.

(* ----------------------------------------------------------------- *)
(** ** The two documents *)

Lemma flat_map_map {A B C : Type} (f : B -> list C) (g : A -> B) (l : list A) :
  flat_map f (map g l) = flat_map (fun x => f (g x)) l.
Proof.
  induction l as [|x l IH]; simpl; [reflexivity | now rewrite IH].
Qed.

Lemma itemLog_count (newsData : list Row) :
  length (flat_map itemLog newsData)
  = (length newsData + N.to_nat (linkedCount newsData))%nat.
Proof.
  unfold linkedCount. rewrite Nat2N.id.
  induction newsData as [|item rest IH]; [reflexivity|].
  cbn [flat_map filter length]. rewrite length_app, IH.
  unfold itemLog at 1.
  destruct (present (get item (lit "thesis"))); simpl; lia.
Qed.

(** X6.  In the direct-file variant the document built from the parsed
    rows is the document heading followed by one section per row, in row
    order, and the heading alone when there is no row.  While building it
    the loop writes only log lines: one progress line per row and one more
    for each row with a cross-reference, as many of the latter as the
    count of linked records reported after the append. *)
Theorem document_is_heading_then_sections
        (date : option jsstring) (newsData : list Row) (w : World) :
  optimizedMarkdown date newsData w
  = (Return (documentHeading date
             ++ concat (map (fun item => Spec.section item []) newsData)),
     flat_map itemLog newsData)
  /\ optimizedMarkdown date [] w = (Return (documentHeading date), [])
  /\ remoteCalls (flat_map itemLog newsData) = []
  /\ length (flat_map itemLog newsData)
     = (length newsData + N.to_nat (linkedCount newsData))%nat.
Proof.
  unfold optimizedMarkdown. rewrite optimized_loop.
  split; [reflexivity|]. split; [reflexivity|]. split.
  - induction newsData as [|item rest IH]; [reflexivity|].
    cbn [flat_map]. unfold remoteCalls in *. rewrite filter_app, IH.
    unfold itemLog. destruct (present (get item (lit "thesis"))); reflexivity.
  - apply itemLog_count.
Qed.

Lemma symbolInfoText_starts_with_space (symbol_info : SymbolInfo) :
  exists rest, symbolInfoText (Some symbol_info) = 32 :: rest.
Proof.
  unfold symbolInfoText, Widget.appendSymbolInfo.
  destruct (truthy (earnings_date symbol_info)); eexists; reflexivity.
Qed.

Lemma sections_agree_iff (newsItems : list NewsItem) :
  concat (map (fun item => Spec.section (item_fields item)
                                        (symbolInfoText (symbol_info item)))
              newsItems)
  = concat (map (fun item => Spec.section (item_fields item) []) newsItems)
  <-> Forall (fun item => symbol_info item = None) newsItems.
Proof.
  induction newsItems as [|item rest IH]; cbn [map concat].
  - split; [constructor | reflexivity].
  - destruct (symbol_info item) as [si|] eqn:E.
    + split.
      * intros H. exfalso. unfold Spec.section in H.
        rewrite <- !app_assoc in H.
        apply app_inv_head in H. apply app_inv_head in H.
        destruct (symbolInfoText_starts_with_space si) as [r Hr].
        rewrite Hr in H. discriminate H.
      * intros H. inversion H; subst. congruence.
    + change (symbolInfoText None) with (@nil char). split.
      * intros H. apply app_inv_head in H. constructor; [exact E|].
        now apply IH.
      * intros H. inversion H; subst. f_equal. now apply IH.
Qed.

(** X7.  For the same records and the same display date the two variants
    assemble the same document if and only if no item carries
    [symbol_info]: one item with [symbol_info] is enough to make the
    documents differ. *)
Theorem documents_agree_iff
        (date : option jsstring) (newsItems : list NewsItem) (w : World) :
  markdownOf (widgetMarkdown date newsItems) w
  = markdownOf (optimizedMarkdown date (map item_fields newsItems)) w
  <-> Forall (fun item => symbol_info item = None) newsItems.
Proof.
  unfold markdownOf, widgetMarkdown, optimizedMarkdown, Widget.buildMarkdown.
  rewrite widget_loop, optimized_loop, map_map.
  rewrite <- sections_agree_iff. split.
  - intros H. inversion H as [H']. now apply app_inv_head in H'.
  - intros ->. reflexivity.
Qed.

(* ----------------------------------------------------------------- *)
(** ** Events of an action, piece by piece *)

Lemma emitsOnly_ret {A : Type} (p : Event -> bool) (a : A) : emitsOnly p (ret a).
Proof. intros w. reflexivity. Qed.

Lemma emitsOnly_throw {A : Type} (p : Event -> bool) (e : jsstring) :
  emitsOnly p (@throw A e).
Proof. intros w. reflexivity. Qed.

Lemma emitsOnly_emit (p : Event -> bool) (e : Event) :
  p e = true -> emitsOnly p (emit e).
Proof. intros H w. simpl. now rewrite H. Qed.

Lemma emitsOnly_bind {A B : Type} (p : Event -> bool) (m : Action A)
      (k : A -> Action B) :
  emitsOnly p m -> (forall a, emitsOnly p (k a)) -> emitsOnly p (bind m k).
Proof.
  intros Hm Hk w. unfold bind. specialize (Hm w).
  destruct (m w) as [[a|e] tr1]; simpl in *; [|exact Hm].
  specialize (Hk a w). destruct (k a w) as [o tr2]. simpl in *.
  rewrite forallb_app, Hm, Hk. reflexivity.
Qed.

Lemma emitsOnly_fetch {A : Type} (p : Event -> bool) (r : Request)
      (who : World -> FetchResult A) :
  p (EFetch r) = true -> emitsOnly p (fetch r who).
Proof.
  intros H w. unfold fetch. destruct (who w); simpl; now rewrite H.
Qed.

Lemma emitsOnly_decoded {A : Type} (p : Event -> bool) (r : Response A) :
  emitsOnly p (decoded r).
Proof. intros w. unfold decoded. destruct (res_body r); reflexivity. Qed.

Lemma emitsOnly_throwIf (p : Event -> bool) (b : bool) (e : jsstring) :
  emitsOnly p (throwIf b e).
Proof. intros w. destruct b; reflexivity. Qed.

Lemma emitsOnly_ask (p : Event -> bool) : emitsOnly p ask.
Proof. intros w. reflexivity. Qed.

Lemma emitsOnly_tryCatchFinally {A : Type} (p : Event -> bool)
      (body : Action A) (handler : jsstring -> Action A) (finalizer : Action unit) :
  emitsOnly p body -> (forall e, emitsOnly p (handler e)) ->
  emitsOnly p finalizer ->
  emitsOnly p (tryCatchFinally body handler finalizer).
Proof.
  intros Hb Hh Hf w. unfold tryCatchFinally.
  specialize (Hb w). specialize (Hf w).
  destruct (body w) as [[a|e] tr1]; simpl in Hb.
  - destruct (finalizer w) as [[u|e] tr3]; simpl in *;
      rewrite !forallb_app, Hb, Hf; reflexivity.
  - specialize (Hh e w). destruct (handler e w) as [o2 tr2].
    destruct (finalizer w) as [[u|e'] tr3]; simpl in *;
      rewrite !forallb_app, Hb, Hh, Hf; reflexivity.
Qed.

Lemma emitsOnly_forOf {A B : Type} (p : Event -> bool) (xs : list A)
      (body : B -> A -> Action B) :
  (forall acc x, emitsOnly p (body acc x)) ->
  forall acc, emitsOnly p (forOf xs body acc).
Proof.
  intros Hbody. induction xs as [|x rest IH]; intros acc; simpl.
  - apply emitsOnly_ret.
  - apply emitsOnly_bind; [apply Hbody | intros acc'; apply IH].
Qed.

(** Walks through an action built from the combinators; what is left is to
    check [p] on the events written out in the action. *)
Ltac emits_only :=
  repeat first
         [ apply emitsOnly_ret
         | apply emitsOnly_throw
         | apply emitsOnly_throwIf
         | apply emitsOnly_decoded
         | apply emitsOnly_ask
         | apply emitsOnly_emit; reflexivity
         | apply emitsOnly_fetch; reflexivity
         | apply emitsOnly_bind; [|intros ?]
         | apply emitsOnly_tryCatchFinally; [| intros ? |]
         | apply emitsOnly_forOf; intros ? ?
         | match goal with
           | |- emitsOnly _ (if ?c then _ else _) => destruct c
           | |- emitsOnly _ (match ?x with _ => _ end) => destruct x
           end
         | progress unfold log, setDisabled, when, readTargetId, reportFailure,
           reportNewsAppend, Optimized.logSummary, Optimized.renderItem,
           Widget.renderItem, Widget.buildMarkdown ].

(** ** The four actions of the direct-file variant never show an exception *)

Lemma importFullPortfolio_returns (w : World) :
  fst (Optimized.importFullPortfolio w) = Return tt.
Proof.
  unfold Optimized.importFullPortfolio. rewrite bind_readTargetId.
  destruct (truthy (Some (trim (targetDocIdValue w)))); cbn [negb];
    [|reflexivity].
  unfold setDisabled, log. rewrite !bind_emit. cbn [fst].
  apply tryCatchFinally_returns; reflexivity.
Qed.

(** X8.  No exception leaves any of the four actions: whatever the
    collaborators answer, the action ends normally, every failure having
    been caught inside it. *)
Theorem actions_catch_every_failure (t : Optimized.Trigger) (w : World) :
  fst (Optimized.handler t w) = Return tt.
Proof.
  destruct t; cbn [Optimized.handler].
  - apply runPortfolioUpdate_returns.
  - apply importNewsToSiyuan_returns.
  - apply importChartToSiyuan_returns.
  - apply importFullPortfolio_returns.
Qed.

(* ----------------------------------------------------------------- *)
(** ** Buttons *)

Lemma buttonsAfter_app (a b : list Event) (st : Buttons) :
  buttonsAfter (a ++ b) st = buttonsAfter b (buttonsAfter a st).
Proof. apply fold_left_app. Qed.

Lemma buttonsAfter_notButton (tr : list Event) :
  forall st, forallb notButton tr = true -> buttonsAfter tr st = st.
Proof.
  induction tr as [|e tr IH]; intros st H; simpl in *; [reflexivity|].
  apply andb_true_iff in H. destruct H as [He Htr].
  destruct e; try discriminate; now apply IH.
Qed.

Lemma buttonsAfter_ext (tr : list Event) :
  forall st st' : Buttons,
    (forall b, st b = st' b) ->
    forall b, buttonsAfter tr st b = buttonsAfter tr st' b.
Proof.
  induction tr as [|e tr IH]; intros st st' H b; simpl; [apply H|].
  apply IH. intros b'. destruct e; simpl; try apply H.
  now rewrite H.
Qed.

Lemma tryCatchFinally_trace {A : Type} (body : Action A)
      (handler : jsstring -> Action A) (finalizer : Action unit) (w : World) :
  exists mid,
    snd (tryCatchFinally body handler finalizer w) = mid ++ snd (finalizer w)
    /\ forall p, forallb p (snd (body w)) = true ->
                 (forall e, forallb p (snd (handler e w)) = true) ->
                 forallb p mid = true.
Proof.
  unfold tryCatchFinally.
  destruct (body w) as [[a|e] tr1].
  - exists tr1. destruct (finalizer w) as [[u|e] tr3]; simpl;
      (split; [reflexivity | intros p H _; exact H]).
  - destruct (handler e w) as [o2 tr2] eqn:Eh. exists (tr1 ++ tr2).
    destruct (finalizer w) as [[u|e'] tr3]; simpl;
      (split; [now rewrite app_assoc
              | intros p H Hh; specialize (Hh e); rewrite Eh in Hh;
                simpl in Hh; now rewrite forallb_app, H, Hh]).
Qed.

(** An action of the shape
    [button.disabled = true; ...; try { ... } catch { ... } finally
     { button.disabled = false }]. *)
Ltac guarded_shape w :=
  unfold setDisabled, log; rewrite !bind_emit; cbn [snd];
  match goal with
  | |- context [tryCatchFinally ?b ?h ?f w] =>
    let mid := fresh "mid" in
    let E := fresh "E" in
    let Hmid := fresh "Hmid" in
    destruct (tryCatchFinally_trace b h f w) as [mid [E Hmid]];
    rewrite E;
    assert (Hb : emitsOnly notButton b) by emits_only;
    assert (Hh : forall e, emitsOnly notButton (h e)) by (intros ?; emits_only);
    specialize (Hmid notButton (Hb w) (fun e => Hh e w))
  end.

Lemma runPortfolioUpdate_shape (w : World) :
  exists mid,
    trace Optimized.runPortfolioUpdate w
    = ESetDisabled WorkBtn true :: mid ++ [ESetDisabled WorkBtn false]
    /\ forallb notButton mid = true.
Proof.
  unfold trace, Optimized.runPortfolioUpdate. guarded_shape w.
  eexists (_ :: _ :: mid). split; [reflexivity|]. exact Hmid.
Qed.

Lemma importNewsToSiyuan_shape (w : World) :
  trim (targetDocIdValue w) <> [] ->
  exists mid,
    trace Optimized.importNewsToSiyuan w
    = ESetDisabled ImportNewsBtn true :: mid ++ [ESetDisabled ImportNewsBtn false]
    /\ forallb notButton mid = true.
Proof.
  intros Htarget. apply truthy_nonempty in Htarget.
  unfold trace, Optimized.importNewsToSiyuan.
  rewrite bind_readTargetId, Htarget. cbn [negb]. guarded_shape w.
  eexists (_ :: mid). split; [reflexivity|]. exact Hmid.
Qed.

Lemma importChartToSiyuan_shape (w : World) :
  trim (targetDocIdValue w) <> [] ->
  exists mid,
    trace Optimized.importChartToSiyuan w
    = ESetDisabled ImportChartBtn true :: mid ++ [ESetDisabled ImportChartBtn false]
    /\ forallb notButton mid = true.
Proof.
  intros Htarget. apply truthy_nonempty in Htarget.
  unfold trace, Optimized.importChartToSiyuan.
  rewrite bind_readTargetId, Htarget. cbn [negb]. guarded_shape w.
  eexists (_ :: mid). split; [reflexivity|]. exact Hmid.
Qed.

Lemma guarded_buttons (own : Button) (mid : list Event) (st : Buttons)
      (b : Button) :
  forallb notButton mid = true ->
  buttonsAfter (ESetDisabled own true :: mid ++ [ESetDisabled own false]) st b
  = if button_eqb b own then false else st b.
Proof.
  intros Hmid. unfold buttonsAfter. cbn [fold_left].
  rewrite fold_left_app. fold (buttonsAfter mid (buttonStep st (ESetDisabled own true))).
  rewrite (buttonsAfter_notButton mid _ Hmid). cbn.
  destruct (button_eqb b own); reflexivity.
Qed.

Lemma blank_target_trace (t : Optimized.Trigger) (w : World) :
  trim (targetDocIdValue w) = [] ->
  t <> Optimized.UpdateData ->
  trace (Optimized.handler t) w = [validationError].
Proof.
  intros Hblank Ht. unfold trace.
  destruct t; [contradiction| | |]; cbn [Optimized.handler];
    [unfold Optimized.importNewsToSiyuan
    |unfold Optimized.importChartToSiyuan
    |unfold Optimized.importFullPortfolio];
    rewrite bind_readTargetId, Hblank; reflexivity.
Qed.

(** X9.  Whatever happens inside an action, a button that was enabled when
    the action began is enabled when it ends: the cleanup of every action
    re-enables what the action disabled. *)
Theorem enabled_buttons_stay_enabled
        (t : Optimized.Trigger) (w : World) (st : Buttons) (b : Button) :
  st b = false ->
  buttonsAfter (trace (Optimized.handler t) w) st b = false.
Proof.
  intros Hst.
  destruct (list_eq_dec N.eq_dec (trim (targetDocIdValue w)) [])
    as [Hblank|Htarget].
  - destruct t.
    + cbn [Optimized.handler].
      destruct (runPortfolioUpdate_shape w) as [mid [-> Hmid]].
      rewrite guarded_buttons by exact Hmid.
      destruct (button_eqb b WorkBtn); auto.
    + rewrite blank_target_trace by (auto; discriminate). exact Hst.
    + rewrite blank_target_trace by (auto; discriminate). exact Hst.
    + rewrite blank_target_trace by (auto; discriminate). exact Hst.
  - destruct t; cbn [Optimized.handler].
    + destruct (runPortfolioUpdate_shape w) as [mid [-> Hmid]].
      rewrite guarded_buttons by exact Hmid.
      destruct (button_eqb b WorkBtn); auto.
    + destruct (importNewsToSiyuan_shape w Htarget) as [mid [-> Hmid]].
      rewrite guarded_buttons by exact Hmid.
      destruct (button_eqb b ImportNewsBtn); auto.
    + destruct (importChartToSiyuan_shape w Htarget) as [mid [-> Hmid]].
      rewrite guarded_buttons by exact Hmid.
      destruct (button_eqb b ImportChartBtn); auto.
    + unfold trace. rewrite (importFullPortfolio_runs_every_step w Htarget).
      cbn [snd]. rewrite !buttonsAfter_app.
      destruct b; reflexivity.
Qed.

Lemma enabled_buttons_stay_enabled_run_all :
  allEnabled ImportNewsBtn = false
  /\ buttonsAfter (trace (Optimized.handler Optimized.RunAll) failedUpdateWorld)
                  allEnabled ImportNewsBtn = false.
Proof.
  assert (H : allEnabled ImportNewsBtn = false) by reflexivity.
  split; [exact H|].
  exact (enabled_buttons_stay_enabled Optimized.RunAll failedUpdateWorld
                                      allEnabled ImportNewsBtn H).
Defined.

(** X10.  In the full pipeline the update button is enabled again as soon
    as step 1 ends: when the news file is requested the update button is
    enabled while the chart button is still disabled. *)
Theorem update_button_released_before_news (w : World) (st : Buttons) :
  trim (targetDocIdValue w) <> [] ->
  exists before after,
    trace Optimized.importFullPortfolio w
    = before ++ EFetch Optimized.newsFileRequest :: after
    /\ buttonsAfter before st WorkBtn = false
    /\ buttonsAfter before st ImportNewsBtn = true
    /\ buttonsAfter before st ImportChartBtn = true.
Proof.
  intros Htarget. unfold trace at 1.
  rewrite (importFullPortfolio_runs_every_step w Htarget). cbn [snd].
  destruct (importNewsToSiyuan_asks_for_file w Htarget) as [rest ->].
  destruct (runPortfolioUpdate_shape w) as [mid [-> Hmid]].
  match goal with
  | |- exists before after,
      ?a ++ ?u ++ ?t ++ (?n ++ ?rest) ++ ?tail = _ /\ _ =>
    exists (a ++ u ++ t ++ removelast n), (rest ++ tail);
    assert (H : forall b,
               buttonsAfter (a ++ u ++ t ++ removelast n) st b
               = buttonsAfter (t ++ removelast n)
                              (fun b' => if button_eqb b' WorkBtn then false
                                         else buttonsAfter a st b') b)
  end.
  { intros b. rewrite 2 buttonsAfter_app. apply buttonsAfter_ext.
    intros b'. apply guarded_buttons. exact Hmid. }
  split.
  - cbn [removelast].
    repeat first [rewrite <- app_assoc | progress cbn [app]]. reflexivity.
  - rewrite !H. repeat split; reflexivity.
Qed.

Lemma update_button_released_before_news_sample :
  trim (targetDocIdValue failedUpdateWorld) <> []
  /\ exists before after,
      trace Optimized.importFullPortfolio failedUpdateWorld
      = before ++ EFetch Optimized.newsFileRequest :: after
      /\ buttonsAfter before allEnabled WorkBtn = false
      /\ buttonsAfter before allEnabled ImportNewsBtn = true
      /\ buttonsAfter before allEnabled ImportChartBtn = true.
Proof.
  assert (H : trim (targetDocIdValue failedUpdateWorld) <> [])
    by (vm_compute; discriminate).
  split; [exact H|].
  exact (update_button_released_before_news failedUpdateWorld allEnabled H).
Defined.

(* ----------------------------------------------------------------- *)
(** ** Remote calls and reports of the single actions *)

Lemma remoteCalls_itemLog (rows : list Row) :
  filter isFetch (flat_map itemLog rows) = [].
Proof.
  induction rows as [|r rows IH]; simpl; [reflexivity|].
  unfold itemLog at 1. destruct (present (get r (lit "thesis"))); simpl;
    exact IH.
Qed.

Lemma errorLines_itemLog (rows : list Row) :
  filter isErrorLine (flat_map itemLog rows) = [].
Proof.
  induction rows as [|r rows IH]; simpl; [reflexivity|].
  unfold itemLog at 1. destruct (present (get r (lit "thesis"))); simpl;
    exact IH.
Qed.

Lemma successLines_itemLog (rows : list Row) :
  existsb isSuccessLine (flat_map itemLog rows) = false.
Proof.
  induction rows as [|r rows IH]; simpl; [reflexivity|].
  unfold itemLog at 1. destruct (present (get r (lit "thesis"))); simpl;
    exact IH.
Qed.

(** X11.  With a target identifier given, the news import reads the news
    file and then makes at most one more call: when the file is served and
    its latest snapshot is non-empty, it appends to the trimmed target
    identifier exactly the document rendered from that snapshot; when the
    file cannot be read or holds no usable row, it appends nothing. *)
Theorem news_import_remote_calls (w : World) :
  trim (targetDocIdValue w) <> [] ->
  remoteCalls (trace Optimized.importNewsToSiyuan w)
  = EFetch Optimized.newsFileRequest
    :: match newsFile w with
       | Responded true _ (Decoded csvText) =>
         match parseNewsCSV csvText with
         | [] => []
         | _ => [EFetch (appendRequest (newsDocument csvText)
                                       (trim (targetDocIdValue w)))]
         end
       | _ => []
       end.
Proof.
  intros Htarget. apply truthy_nonempty in Htarget.
  unfold trace, Optimized.importNewsToSiyuan, remoteCalls.
  rewrite bind_readTargetId, Htarget. cbn [negb].
  cbv [bind emit log setDisabled tryCatchFinally fetch decoded throwIf
       reportFailure reportNewsAppend ret throw when res_ok res_status res_body].
  destruct (newsFile w) as [e|[] st [csvText|e]];
    cbn [negb fst snd app filter isFetch]; try reflexivity.
  unfold newsDocument.
  destruct (parseNewsCSV csvText) as [|first rest] eqn:EP;
    cbn [length Nat.eqb negb fst snd app filter isFetch]; try reflexivity.
  rewrite optimized_loop.
  destruct (appendBlock w _) as [e|ok st' [appendData|e]];
    [| destruct (app_code appendData) as [[|c|c]|];
       [destruct (N.ltb 0 (linkedCount (first :: rest)))| | |] |];
    cbn [negb fst snd app filter isFetch];
    rewrite ?filter_app, ?remoteCalls_itemLog;
    cbn [negb fst snd app filter isFetch]; reflexivity.
Qed.

Lemma news_import_remote_calls_sample :
  trim (targetDocIdValue failedUpdateWorld) <> []
  /\ remoteCalls (trace Optimized.importNewsToSiyuan failedUpdateWorld)
     = [EFetch Optimized.newsFileRequest;
        EFetch (appendRequest (newsDocument sampleCsv) sampleTarget)].
Proof.
  assert (H : trim (targetDocIdValue failedUpdateWorld) <> [])
    by (vm_compute; discriminate).
  split; [exact H|].
  exact (news_import_remote_calls failedUpdateWorld H).
Defined.

(** X12.  The news import writes success lines exactly when the host
    accepted the append: a target identifier was given, the news file was
    served, its latest snapshot is non-empty and the answer to the append
    of the rendered snapshot carries the code 0.  In every other case (a
    blank target identifier, an unreadable or empty file, a rejected or
    unreadable append, any other code) it writes exactly one error line and
    no success line. *)
Theorem news_import_reports_one_outcome (w : World) :
  existsb isSuccessLine (trace Optimized.importNewsToSiyuan w)
  = newsAppendAccepted w
  /\ length (filter isErrorLine (trace Optimized.importNewsToSiyuan w))
     = if newsAppendAccepted w then 0%nat else 1%nat.
Proof.
  unfold trace, Optimized.importNewsToSiyuan, newsAppendAccepted.
  rewrite bind_readTargetId.
  destruct (truthy (Some (trim (targetDocIdValue w)))); cbn [negb andb];
    [|split; reflexivity].
  cbv [bind emit log setDisabled tryCatchFinally fetch decoded throwIf
       reportFailure reportNewsAppend ret throw when res_ok res_status res_body].
  destruct (newsFile w) as [e|[] st [csvText|e]];
    cbn [negb fst snd app filter existsb isErrorLine isSuccessLine length orb];
    try (split; reflexivity).
  unfold newsDocument.
  destruct (parseNewsCSV csvText) as [|first rest] eqn:EP;
    cbn [length Nat.eqb negb fst snd app filter existsb isErrorLine
         isSuccessLine orb]; try (split; reflexivity).
  rewrite optimized_loop.
  destruct (appendBlock w _) as [e|ok st' [appendData|e]];
    [| destruct (app_code appendData) as [[|c|c]|];
       [destruct (N.ltb 0 (linkedCount (first :: rest)))| | |] |];
    cbn [negb fst snd app filter existsb isErrorLine isSuccessLine orb];
    rewrite ?filter_app, ?existsb_app, ?errorLines_itemLog,
      ?successLines_itemLog;
    cbn [negb fst snd app filter existsb isErrorLine isSuccessLine orb length];
    split; reflexivity.
Qed.

(** The host answers the append with the code 1: one error line, no
    success line. *)
Example refused_append_is_an_error :
  let w := mkWorld sampleTarget updateReportsError
                   (Responded true 200 (Decoded sampleCsv))
                   (Responded true 200 (Decoded tt))
                   (fun _ => Responded true 200
                               (Decoded (mkAppendResult (Some 1%Z)
                                                        (Some (lit "no such block")))))
                   (Rejected []) in
  newsAppendAccepted w = false
  /\ filter isErrorLine (trace Optimized.importNewsToSiyuan w)
     = [ELog (lit "❌ 失败: 思源 API 错误: no such block") Error]
  /\ existsb isSuccessLine (trace Optimized.importNewsToSiyuan w) = false.
Proof. vm_compute. repeat split. Qed.

(** X13.  The update action reports success exactly when the update
    collaborator answered with a 2xx status and the status flag [success];
    in every other case (rejected request, other transport status,
    unreadable body, other flag) it writes exactly one error line and no
    success line. *)
Theorem update_reports_one_outcome (w : World) :
  existsb isSuccessLine (trace Optimized.runPortfolioUpdate w)
  = updateSucceeded w
  /\ length (filter isErrorLine (trace Optimized.runPortfolioUpdate w))
     = if updateSucceeded w then 0%nat else 1%nat.
Proof.
  unfold trace, Optimized.runPortfolioUpdate, updateSucceeded.
  cbv [bind emit log setDisabled tryCatchFinally fetch decoded throwIf
       reportFailure ret throw when Optimized.logSummary res_ok res_status
       res_body].
  destruct (updatePortfolio w) as [e|[] st [py|e]];
    cbn [negb fst snd app filter existsb isErrorLine isSuccessLine length orb];
    try (split; reflexivity).
  destruct (isSuccess (upd_status py));
    cbn [negb fst snd app filter existsb isErrorLine isSuccessLine length orb];
    try (split; reflexivity).
  destruct (isSuccess (upd_chart_status py));
    [|destruct (strict_eq (upd_chart_status py) (Some (lit "warning")))];
    destruct (upd_summary py);
    cbn [negb fst snd app filter existsb isErrorLine isSuccessLine length orb];
    split; reflexivity.
Qed.

(** X14.  With a target identifier given, the chart import checks the chart
    file and, only when that answers with a 2xx status, appends the fixed
    frame snippet pointing at the chart file to the trimmed target
    identifier; it makes no other call. *)
Theorem chart_import_remote_calls (w : World) :
  trim (targetDocIdValue w) <> [] ->
  remoteCalls (trace Optimized.importChartToSiyuan w)
  = EFetch Optimized.chartFileRequest
    :: match chartFile w with
       | Responded true _ _ =>
         [EFetch (appendRequest (Optimized.iframeHtml Optimized.chartPath)
                                (trim (targetDocIdValue w)))]
       | _ => []
       end.
Proof.
  intros Htarget. apply truthy_nonempty in Htarget.
  unfold trace, Optimized.importChartToSiyuan, remoteCalls.
  rewrite bind_readTargetId, Htarget. cbn [negb].
  cbv [bind emit log setDisabled tryCatchFinally fetch decoded throwIf
       reportFailure ret throw when res_ok res_status res_body].
  destruct (chartFile w) as [e|[] st body];
    cbn [negb fst snd app filter isFetch]; try reflexivity.
  destruct (appendBlock w _) as [e|ok st' [appendData|e]];
    [| destruct (app_code appendData) as [[|c|c]|] |];
    cbn [negb fst snd app filter isFetch]; reflexivity.
Qed.

Lemma chart_import_remote_calls_sample :
  trim (targetDocIdValue failedUpdateWorld) <> []
  /\ remoteCalls (trace Optimized.importChartToSiyuan failedUpdateWorld)
     = [EFetch Optimized.chartFileRequest;
        EFetch (appendRequest (Optimized.iframeHtml Optimized.chartPath)
                              sampleTarget)].
Proof.
  assert (H : trim (targetDocIdValue failedUpdateWorld) <> [])
    by (vm_compute; discriminate).
  split; [exact H|].
  exact (chart_import_remote_calls failedUpdateWorld H).
Defined.

(* ----------------------------------------------------------------- *)
(** ** The full pipeline of the direct-file variant *)

Lemma remoteCalls_app (a b : list Event) :
  remoteCalls (a ++ b) = remoteCalls a ++ remoteCalls b.
Proof. apply filter_app. Qed.

(** X15.  With a target identifier given, the full pipeline is its three
    steps run one after the other between its own lines, whatever each step
    met: its events are those of the update, of the news import and of the
    chart import, in this order, and it calls the collaborators exactly as
    the three steps do. *)
Theorem full_pipeline_runs_three_steps (w : World) :
  trim (targetDocIdValue w) <> [] ->
  trace Optimized.importFullPortfolio w
  = [ESetDisabled WorkBtn true; ESetDisabled ImportNewsBtn true;
     ESetDisabled ImportChartBtn true; EClearLog;
     ELog pipelineOpening Info; ELog stepOneHeading Info]
    ++ trace Optimized.runPortfolioUpdate w
    ++ [ETimeout 1000; ELog (nl ++ lit "=== 步骤 2/3: 导入新闻 ===") Info]
    ++ trace Optimized.importNewsToSiyuan w
    ++ [ELog (nl ++ lit "=== 步骤 3/3: 导入交互式图表 ===") Info]
    ++ trace Optimized.importChartToSiyuan w
    ++ [ELog (nl ++ lit "🎊 完整导入流程执行成功！") Success;
        ESetDisabled WorkBtn false; ESetDisabled ImportNewsBtn false;
        ESetDisabled ImportChartBtn false]
  /\ remoteCalls (trace Optimized.importFullPortfolio w)
     = EFetch updateRequest
       :: remoteCalls (trace Optimized.importNewsToSiyuan w)
       ++ remoteCalls (trace Optimized.importChartToSiyuan w).
Proof.
  intros Htarget.
  assert (E := importFullPortfolio_runs_every_step w Htarget).
  unfold trace at 1 5. rewrite E. cbn [snd].
  unfold pipelineOpening, stepOneHeading. split; [reflexivity|].
  pose proof (proj1 (runPortfolioUpdate_calls_bridge w)) as Hu.
  unfold remoteCalls in *. rewrite !filter_app, Hu.
  cbn [filter isFetch app]. rewrite app_nil_r. reflexivity.
Qed.

Lemma full_pipeline_runs_three_steps_sample :
  trim (targetDocIdValue http500World) <> []
  /\ remoteCalls (trace Optimized.importFullPortfolio http500World)
     = EFetch updateRequest
       :: remoteCalls (trace Optimized.importNewsToSiyuan http500World)
       ++ remoteCalls (trace Optimized.importChartToSiyuan http500World).
Proof.
  assert (H : trim (targetDocIdValue http500World) <> [])
    by (vm_compute; discriminate).
  split; [exact H|].
  exact (proj2 (full_pipeline_runs_three_steps http500World H)).
Defined.

Lemma panelAfter_app (a b : list Event) (panel : list (jsstring * LogType)) :
  panelAfter (a ++ b) panel = panelAfter b (panelAfter a panel).
Proof. apply fold_left_app. Qed.

Lemma panel_keeps_out (msg : jsstring) (tr : list Event) :
  forall panel,
    forallb (notLine msg) tr = true ->
    (forall type, ~ In (msg, type) panel) ->
    forall type, ~ In (msg, type) (panelAfter tr panel).
Proof.
  induction tr as [|e tr IH]; intros panel Htr Hpanel type; simpl in *;
    [apply Hpanel|].
  apply andb_true_iff in Htr. destruct Htr as [He Htr].
  apply IH; [exact Htr|]. intros type'.
  destruct e; simpl; try apply Hpanel; [|intros []].
  intros Hin. apply in_app_or in Hin. destruct Hin as [Hin|[Hin|[]]].
  - exact (Hpanel type' Hin).
  - inversion Hin; subst. simpl in He. rewrite str_eqb_refl in He.
    discriminate.
Qed.

Lemma panel_forgets (msg : jsstring) (tr : list Event) :
  forall panel,
    forallb (notLine msg) tr = true ->
    In EClearLog tr ->
    forall type, ~ In (msg, type) (panelAfter tr panel).
Proof.
  induction tr as [|e tr IH]; intros panel Htr Hclear type; simpl in *;
    [destruct Hclear|].
  apply andb_true_iff in Htr. destruct Htr as [He Htr].
  destruct Hclear as [->|Hclear].
  - simpl. apply panel_keeps_out; [exact Htr | intros t []].
  - now apply IH.
Qed.

Lemma pipeline_steps_keep_out (msg : jsstring) (w : World) :
  msg = pipelineOpening \/ msg = stepOneHeading ->
  forallb (notLine msg) (trace Optimized.runPortfolioUpdate w) = true
  /\ forallb (notLine msg) (trace Optimized.importNewsToSiyuan w) = true
  /\ forallb (notLine msg) (trace Optimized.importChartToSiyuan w) = true.
Proof.
  intros Hmsg.
  assert (Hu : emitsOnly (notLine msg) Optimized.runPortfolioUpdate)
    by (destruct Hmsg; subst msg; unfold Optimized.runPortfolioUpdate;
        emits_only).
  assert (Hn : emitsOnly (notLine msg) Optimized.importNewsToSiyuan)
    by (destruct Hmsg; subst msg; unfold Optimized.importNewsToSiyuan;
        emits_only).
  assert (Hc : emitsOnly (notLine msg) Optimized.importChartToSiyuan)
    by (destruct Hmsg; subst msg; unfold Optimized.importChartToSiyuan;
        emits_only).
  split; [exact (Hu w) | split; [exact (Hn w) | exact (Hc w)]].
Qed.

(** X16.  In the full pipeline the opening line and the heading of step 1
    are written and then lost: the update step clears the log panel, so
    when the pipeline ends the panel shows neither of them. *)
Theorem pipeline_opening_lines_are_wiped
        (w : World) (panel : list (jsstring * LogType)) (msg : jsstring)
        (type : LogType) :
  trim (targetDocIdValue w) <> [] ->
  msg = pipelineOpening \/ msg = stepOneHeading ->
  In (ELog msg Info) (trace Optimized.importFullPortfolio w)
  /\ ~ In (msg, type)
          (panelAfter (trace Optimized.importFullPortfolio w) panel).
Proof.
  intros Htarget Hmsg.
  destruct (pipeline_steps_keep_out msg w Hmsg) as [Hu [Hn Hc]].
  unfold trace at 1 2.
  rewrite (importFullPortfolio_runs_every_step w Htarget). cbn [snd]. split.
  - apply in_or_app. left.
    destruct Hmsg; subst msg; unfold pipelineOpening, stepOneHeading;
      cbn [In]; [do 4 right; left | do 5 right; left]; reflexivity.
  - rewrite panelAfter_app. apply panel_forgets.
    + rewrite !forallb_app, Hu, Hn, Hc.
      destruct Hmsg; subst msg; vm_compute; reflexivity.
    + apply in_or_app. left.
      destruct (runPortfolioUpdate_shape w) as [mid [E _]].
      unfold trace, Optimized.runPortfolioUpdate, setDisabled.
      rewrite !bind_emit. cbn [snd In]. auto.
Qed.

Lemma pipeline_opening_lines_are_wiped_sample :
  trim (targetDocIdValue failedUpdateWorld) <> []
  /\ In (ELog pipelineOpening Info)
        (trace Optimized.importFullPortfolio failedUpdateWorld)
  /\ ~ In (pipelineOpening, Info)
          (panelAfter (trace Optimized.importFullPortfolio failedUpdateWorld) []).
Proof.
  assert (H : trim (targetDocIdValue failedUpdateWorld) <> [])
    by (vm_compute; discriminate).
  split; [exact H|].
  exact (pipeline_opening_lines_are_wiped failedUpdateWorld [] pipelineOpening
                                          Info H (or_introl eq_refl)).
Defined.

(* ----------------------------------------------------------------- *)
(** ** The remote-service variant *)

Lemma widget_runPortfolioUpdate_returns (w : World) :
  fst (WidgetPipeline.runPortfolioUpdate w) = Return tt.
Proof.
  unfold WidgetPipeline.runPortfolioUpdate, setDisabled, log.
  rewrite !bind_emit. cbn [fst].
  apply tryCatchFinally_returns; reflexivity.
Qed.

Lemma widget_importNewsToSiyuan_returns (w : World) :
  fst (Widget.importNewsToSiyuan w) = Return tt.
Proof.
  unfold Widget.importNewsToSiyuan. rewrite bind_readTargetId.
  destruct (truthy (Some (trim (targetDocIdValue w)))); cbn [negb];
    [|reflexivity].
  unfold setDisabled, log. rewrite !bind_emit. cbn [fst].
  apply tryCatchFinally_returns; reflexivity.
Qed.

Lemma widget_importChartToSiyuan_returns
      (generateChart : FetchResult WidgetPipeline.ChartResult)
      (copyChart : Request -> FetchResult WidgetPipeline.CopyResult)
      (w : World) :
  fst (WidgetPipeline.importChartToSiyuan generateChart copyChart w)
  = Return tt.
Proof.
  unfold WidgetPipeline.importChartToSiyuan. rewrite bind_readTargetId.
  destruct (truthy (Some (trim (targetDocIdValue w)))); cbn [negb];
    [|reflexivity].
  unfold setDisabled, log. rewrite !bind_emit. cbn [fst].
  apply tryCatchFinally_returns; reflexivity.
Qed.

Lemma widget_runPortfolioUpdate_calls_bridge (w : World) :
  remoteCalls (trace WidgetPipeline.runPortfolioUpdate w)
  = [EFetch updateRequest].
Proof.
  unfold trace, WidgetPipeline.runPortfolioUpdate, remoteCalls.
  cbv [bind emit log setDisabled tryCatchFinally fetch decoded throwIf
       reportFailure ret throw when Optimized.logSummary res_ok res_status
       res_body].
  destruct (updatePortfolio w) as [e|[] st [py|e]];
    cbn [negb fst snd app filter isFetch]; try reflexivity.
  destruct (isSuccess (upd_status py)); cbn [negb fst snd app filter isFetch];
    try reflexivity.
  destruct (upd_summary py); cbn [negb fst snd app filter isFetch];
    reflexivity.
Qed.

(** X17.  With a target identifier given, the news import of the
    remote-service variant asks for the latest news and then makes at most
    one more call.  When the answer has a 2xx status, the status flag
    [success] and a list of items whose fields are strings, it appends to
    the trimmed target identifier the document built from the answer's
    date and items, an empty list giving the heading alone.  When the
    request is rejected, the status is not 2xx, the body cannot be read,
    the flag is not [success] or the list is missing, it appends nothing.
    Items with a field that is not a string, and a [news] that is a string,
    are outside this statement. *)
Theorem widget_news_import_remote_calls (w : World) :
  trim (targetDocIdValue w) <> [] ->
  remoteCalls (trace Widget.importNewsToSiyuan w)
  = EFetch Widget.latestNewsRequest
    :: match latestNews w with
       | Responded true _ (Decoded newsData) =>
         if isSuccess (news_status newsData)
         then match news_items newsData with
              | Some newsItems =>
                [EFetch (appendRequest
                           (widgetDocument (news_date newsData) newsItems)
                           (trim (targetDocIdValue w)))]
              | None => []
              end
         else []
       | _ => []
       end.
Proof.
  intros Htarget. apply truthy_nonempty in Htarget.
  unfold trace, Widget.importNewsToSiyuan, remoteCalls.
  rewrite bind_readTargetId, Htarget. cbn [negb].
  cbv [bind emit log setDisabled tryCatchFinally fetch decoded throwIf
       reportFailure reportNewsAppend ret throw when res_ok res_status res_body
       Widget.buildMarkdown].
  destruct (latestNews w) as [e|[] st [newsData|e]];
    cbn [negb fst snd app filter isFetch]; try reflexivity.
  destruct (isSuccess (news_status newsData));
    cbn [negb fst snd app filter isFetch]; try reflexivity.
  destruct (news_items newsData) as [newsItems|];
    cbn [negb fst snd app filter isFetch]; try reflexivity.
  rewrite widget_loop. unfold widgetDocument.
  assert (Hlog : filter isFetch
                        (flat_map (fun item => itemLog (item_fields item))
                                  newsItems) = []).
  { rewrite <- flat_map_map. apply remoteCalls_itemLog. }
  destruct (appendBlock w _) as [e|ok st' [appendData|e]];
    [| destruct (app_code appendData) as [[|c|c]|];
       [destruct (N.ltb 0 (linkedCount (map item_fields newsItems)))| | |] |];
    cbn [negb fst snd app filter isFetch];
    rewrite ?filter_app, ?Hlog;
    cbn [negb fst snd app filter isFetch]; reflexivity.
Qed.

Lemma widget_news_import_remote_calls_sample :
  trim (targetDocIdValue failedUpdateWorld) <> []
  /\ remoteCalls (trace Widget.importNewsToSiyuan failedUpdateWorld)
     = [EFetch Widget.latestNewsRequest;
        EFetch (appendRequest
                  (widgetDocument (Some (lit "2024-01-05")) sampleItems)
                  sampleTarget)].
Proof.
  assert (H : trim (targetDocIdValue failedUpdateWorld) <> [])
    by (vm_compute; discriminate).
  split; [exact H|].
  exact (widget_news_import_remote_calls failedUpdateWorld H).
Defined.

(** X18.  With a target identifier given, the chart import of the
    remote-service variant calls its collaborators in a chain that stops at
    the first failure: it asks for the chart; only when that answers 2xx
    with the flag [success] it asks for the copy of the returned chart
    path; only when the copy answers 2xx with the flag [success] it appends
    the frame snippet pointing at the returned asset path. *)
Theorem widget_chart_import_remote_calls
        (generateChart : FetchResult WidgetPipeline.ChartResult)
        (copyChart : Request -> FetchResult WidgetPipeline.CopyResult)
        (w : World) :
  trim (targetDocIdValue w) <> [] ->
  remoteCalls
    (trace (WidgetPipeline.importChartToSiyuan generateChart copyChart) w)
  = EFetch WidgetPipeline.generateChartRequest
    :: match generateChart with
       | Responded true _ (Decoded chartData) =>
         if isSuccess (WidgetPipeline.gen_status chartData)
         then
           let copyRequest :=
             WidgetPipeline.copyChartRequest
               (WidgetPipeline.gen_chart_path chartData) in
           EFetch copyRequest
           :: match copyChart copyRequest with
              | Responded true _ (Decoded copyData) =>
                if isSuccess (WidgetPipeline.copy_status copyData)
                then [EFetch (appendRequest
                                (Optimized.iframeHtml
                                   (tpl (WidgetPipeline.copy_asset_path copyData)))
                                (trim (targetDocIdValue w)))]
                else []
              | _ => []
              end
         else []
       | _ => []
       end.
Proof.
  intros Htarget. apply truthy_nonempty in Htarget.
  unfold trace, WidgetPipeline.importChartToSiyuan, remoteCalls.
  rewrite bind_readTargetId, Htarget. cbn [negb].
  cbv [bind emit log setDisabled tryCatchFinally fetch decoded throwIf
       reportFailure ret throw when res_ok res_status res_body].
  destruct generateChart as [e|[] st [chartData|e]];
    cbn [negb fst snd app filter isFetch]; try reflexivity.
  destruct (isSuccess (WidgetPipeline.gen_status chartData));
    cbn [negb fst snd app filter isFetch]; try reflexivity.
  destruct (copyChart _) as [e|[] st' [copyData|e]];
    cbn [negb fst snd app filter isFetch]; try reflexivity.
  destruct (isSuccess (WidgetPipeline.copy_status copyData));
    cbn [negb fst snd app filter isFetch]; try reflexivity.
  destruct (appendBlock w _) as [e|ok st'' [appendData|e]];
    [| destruct (app_code appendData) as [[|c|c]|] |];
    cbn [negb fst snd app filter isFetch]; reflexivity.
Qed.

Lemma widget_chart_import_remote_calls_sample :
  trim (targetDocIdValue failedUpdateWorld) <> []
  /\ remoteCalls
       (trace (WidgetPipeline.importChartToSiyuan chartGenerated chartCopied)
              failedUpdateWorld)
     = [EFetch WidgetPipeline.generateChartRequest;
        EFetch (WidgetPipeline.copyChartRequest
                  (Some (lit "/tmp/portfolio_sectors_unified.html")));
        EFetch (appendRequest
                  (Optimized.iframeHtml
                     (lit "assets/portfolio_sectors_unified.html"))
                  sampleTarget)].
Proof.
  assert (H : trim (targetDocIdValue failedUpdateWorld) <> [])
    by (vm_compute; discriminate).
  split; [exact H|].
  pose proof (widget_chart_import_remote_calls chartGenerated chartCopied
                                               failedUpdateWorld H) as E.
  rewrite E. vm_compute. reflexivity.
Defined.

(** X19.  With a target identifier given, the full pipeline of the
    remote-service variant is its three steps run one after the other
    between its own lines, whatever each step met, and it ends by reporting
    success; it calls the collaborators exactly as the three steps do. *)
Theorem widget_pipeline_runs_three_steps
        (generateChart : FetchResult WidgetPipeline.ChartResult)
        (copyChart : Request -> FetchResult WidgetPipeline.CopyResult)
        (w : World) :
  trim (targetDocIdValue w) <> [] ->
  WidgetPipeline.importFullPortfolio generateChart copyChart w
  = (Return tt,
     [ESetDisabled WorkBtn true; ESetDisabled ImportNewsBtn true;
      ESetDisabled ImportChartBtn true; EClearLog;
      ELog pipelineOpening Info; ELog stepOneHeading Info]
     ++ trace WidgetPipeline.runPortfolioUpdate w
     ++ [ELog (nl ++ lit "=== 步骤 2/3: 导入新闻 ===") Info]
     ++ trace Widget.importNewsToSiyuan w
     ++ [ELog (nl ++ lit "=== 步骤 3/3: 导入交互式图表 ===") Info]
     ++ trace (WidgetPipeline.importChartToSiyuan generateChart copyChart) w
     ++ [ELog (nl ++ lit "🎊 完整导入流程执行成功！") Success;
         ESetDisabled WorkBtn false; ESetDisabled ImportNewsBtn false;
         ESetDisabled ImportChartBtn false])
  /\ remoteCalls
       (trace (WidgetPipeline.importFullPortfolio generateChart copyChart) w)
     = EFetch updateRequest
       :: remoteCalls (trace Widget.importNewsToSiyuan w)
       ++ remoteCalls
            (trace (WidgetPipeline.importChartToSiyuan generateChart copyChart)
                   w).
Proof.
  intros Htarget.
  assert (E : WidgetPipeline.importFullPortfolio generateChart copyChart w
              = (Return tt,
                 [ESetDisabled WorkBtn true; ESetDisabled ImportNewsBtn true;
                  ESetDisabled ImportChartBtn true; EClearLog;
                  ELog pipelineOpening Info; ELog stepOneHeading Info]
                 ++ trace WidgetPipeline.runPortfolioUpdate w
                 ++ [ELog (nl ++ lit "=== 步骤 2/3: 导入新闻 ===") Info]
                 ++ trace Widget.importNewsToSiyuan w
                 ++ [ELog (nl ++ lit "=== 步骤 3/3: 导入交互式图表 ===") Info]
                 ++ trace (WidgetPipeline.importChartToSiyuan
                             generateChart copyChart) w
                 ++ [ELog (nl ++ lit "🎊 完整导入流程执行成功！") Success;
                     ESetDisabled WorkBtn false;
                     ESetDisabled ImportNewsBtn false;
                     ESetDisabled ImportChartBtn false])).
  { apply truthy_nonempty in Htarget.
    unfold WidgetPipeline.importFullPortfolio, pipelineOpening, stepOneHeading.
    rewrite bind_readTargetId, Htarget.
    cbn [negb]. unfold setDisabled, log. rewrite !bind_emit.
    unfold tryCatchFinally.
    rewrite ?bind_emit.
    rewrite (bind_returns _ _ _ (widget_runPortfolioUpdate_returns w)).
    rewrite ?bind_emit.
    rewrite (bind_returns _ _ _ (widget_importNewsToSiyuan_returns w)).
    rewrite ?bind_emit.
    rewrite (bind_returns _ _ _ (widget_importChartToSiyuan_returns
                                   generateChart copyChart w)).
    unfold emit, trace. cbn [fst snd app].
    repeat first [rewrite <- app_assoc | progress cbn [app]]. reflexivity. }
  split; [exact E|].
  unfold trace at 1. rewrite E. cbn [snd].
  pose proof (widget_runPortfolioUpdate_calls_bridge w) as Hu.
  unfold remoteCalls in *. rewrite !filter_app, Hu.
  cbn [filter isFetch app]. rewrite app_nil_r. reflexivity.
Qed.

Lemma widget_pipeline_runs_three_steps_sample :
  trim (targetDocIdValue failedUpdateWorld) <> []
  /\ remoteCalls
       (trace (WidgetPipeline.importFullPortfolio chartGenerated chartCopied)
              failedUpdateWorld)
     = EFetch updateRequest
       :: remoteCalls (trace Widget.importNewsToSiyuan failedUpdateWorld)
       ++ remoteCalls
            (trace (WidgetPipeline.importChartToSiyuan chartGenerated
                                                       chartCopied)
                   failedUpdateWorld).
Proof.
  assert (H : trim (targetDocIdValue failedUpdateWorld) <> [])
    by (vm_compute; discriminate).
  split; [exact H|].
  exact (proj2 (widget_pipeline_runs_three_steps chartGenerated chartCopied
                                                 failedUpdateWorld H)).
Defined.

(** X20.  In the remote-service variant too, the chart import and the full
    pipeline stop at a blank target identifier: one validation error line,
    no remote call, no button touched; and no exception leaves any of its
    four actions. *)
Theorem widget_actions_validate_and_catch
        (generateChart : FetchResult WidgetPipeline.ChartResult)
        (copyChart : Request -> FetchResult WidgetPipeline.CopyResult)
        (w : World) :
  (trim (targetDocIdValue w) = [] ->
   WidgetPipeline.importChartToSiyuan generateChart copyChart w
   = (Return tt, [validationError])
   /\ WidgetPipeline.importFullPortfolio generateChart copyChart w
      = (Return tt, [validationError]))
  /\ fst (WidgetPipeline.runPortfolioUpdate w) = Return tt
  /\ fst (Widget.importNewsToSiyuan w) = Return tt
  /\ fst (WidgetPipeline.importChartToSiyuan generateChart copyChart w)
     = Return tt
  /\ fst (WidgetPipeline.importFullPortfolio generateChart copyChart w)
     = Return tt.
Proof.
  split; [|split; [|split; [|split]]].
  - intros Hblank. split.
    + unfold WidgetPipeline.importChartToSiyuan.
      rewrite bind_readTargetId, Hblank. reflexivity.
    + unfold WidgetPipeline.importFullPortfolio.
      rewrite bind_readTargetId, Hblank. reflexivity.
  - apply widget_runPortfolioUpdate_returns.
  - apply widget_importNewsToSiyuan_returns.
  - apply widget_importChartToSiyuan_returns.
  - unfold WidgetPipeline.importFullPortfolio. rewrite bind_readTargetId.
    destruct (truthy (Some (trim (targetDocIdValue w)))); cbn [negb];
      [|reflexivity].
    unfold setDisabled, log. rewrite !bind_emit. cbn [fst].
    apply tryCatchFinally_returns; reflexivity.
Qed.

Lemma widget_actions_validate_and_catch_blank :
  trim (targetDocIdValue blankTargetWorld) = []
  /\ WidgetPipeline.importChartToSiyuan chartGenerated chartCopied
                                        blankTargetWorld
     = (Return tt, [validationError])
  /\ WidgetPipeline.importFullPortfolio chartGenerated chartCopied
                                        blankTargetWorld
     = (Return tt, [validationError]).
Proof.
  assert (H : trim (targetDocIdValue blankTargetWorld) = []) by reflexivity.
  split; [exact H|].
  exact (proj1 (widget_actions_validate_and_catch chartGenerated chartCopied
                                                  blankTargetWorld) H).
Defined.
